(** * Cryptalyze: the candle ingestion pipeline

    A shallow embedding of [src/real_time.py] and [src/data_processor.py]:
    the historical backfill ([BulkDataDownloader], [BinanceRealtimeData]),
    the live WebSocket feed and the consolidated dataset kept by
    [ContinuousDataStreamer].

    Modelling conventions.
    - A polars [DataFrame] is the list of its rows; [pl.concat] is row
      append, [tail(n)] the last [n] rows, [is_empty] the empty list.  Column
      names and dtypes are not part of the model: [pl.DataFrame()] is the
      empty list, and frames that are concatenated are taken to have the
      same schema.
    - Python [float] is a binary64 value ([PrimFloat.float]); Python [int] is
      [Z]; [datetime] values are integers (microseconds for the wall clock,
      milliseconds for candle timestamps).
    - Every method runs in the monad [M]: it threads the [World] (the
      streamer object, standard output, the files written, and the oracles
      that stand for the network and the wall clock) and either returns a
      value or raises a Python exception.
    - Functions of the Python runtime and of polars whose results only matter
      through success or failure are fields of the class [PyLib]. *)

From Stdlib Require Import ZArith List String Ascii Bool Lia.
From Stdlib Require Import Sorting.Sorted Sorting.Permutation.
From Stdlib Require Import Floats.PrimFloat Numbers.Cyclic.Int63.Uint63.
Import ListNotations.

Local Open Scope string_scope.
Local Open Scope list_scope.
Local Open Scope Z_scope.

Set Implicit Arguments.

(** ** Exceptions and results *)

(** [except Exception] catches everything but [KeyboardInterrupt]. *)
Inductive exn : Type :=
| Exception (msg : string)
| KeyboardInterrupt.

Inductive result (A : Type) : Type :=
| Ok (a : A)
| Raise (e : exn).

Arguments Ok {A} a.
Arguments Raise {A} e.

(** What an external service answers: an error message or a payload. *)
Definition response (A : Type) : Type := (string + A)%type.

(** ** Rows and frames *)

(** A row of the 14-column klines frame ([KLINES_COLUMNS] plus the two
    derived datetime columns). *)
Module Row.
Record t : Type := mk {
  open_time : Z;
  open : float;
  high : float;
  low : float;
  close : float;
  volume : float;
  close_time : Z;
  quote_asset_volume : float;
  number_of_trades : Z;
  taker_buy_base_volume : float;
  taker_buy_quote_volume : float;
  ignore : string;
  open_datetime : Z;
  close_datetime : Z
}.
End Row.

Definition DataFrame : Type := list Row.t.

Definition is_empty (df : DataFrame) : bool :=
  match df with [] => true | _ :: _ => false end.

(** [df.tail(n)]: the last [n] rows (all of them when there are fewer). *)
Definition tail (n : nat) (df : DataFrame) : DataFrame :=
  skipn (List.length df - n) df.

(** [pl.concat([a, b])]. *)
Definition pl_concat (a b : DataFrame) : DataFrame := a ++ b.

(** A row of the 12-column klines table, as the archive's CSV files and the
    REST endpoint give it.  [P] is the type of the price and volume columns:
    text as delivered by the REST endpoint, [float] once parsed. *)
Module Kline.
Record t (P : Type) : Type := mk {
  open_time : Z;
  open : P;
  high : P;
  low : P;
  close : P;
  volume : P;
  close_time : Z;
  quote_asset_volume : P;
  number_of_trades : Z;
  taker_buy_base_volume : P;
  taker_buy_quote_volume : P;
  ignore : string
}.
End Kline.

(** The [candle_data] dictionary built by [stream_live_data]. *)
Module Candle.
Record t : Type := mk {
  open_time : Z;
  open : float;
  high : float;
  low : float;
  close : float;
  volume : float;
  close_time : Z;
  quote_asset_volume : float;
  number_of_trades : Z;
  taker_buy_base_volume : float;
  taker_buy_quote_volume : float;
  is_closed : bool;
  open_datetime : Z;
  close_datetime : Z
}.
End Candle.

(** ** Decoded JSON *)

#[local] Unset Elimination Schemes.
Inductive json : Type :=
| JNull
| JBool (b : bool)
| JInt (z : Z)
| JReal (f : float)
| JStr (s : string)
| JArr (items : list json)
| JObj (fields : list (string * json)).
#[local] Set Elimination Schemes.

(** [obj[key]] on a decoded value: defined on objects that hold the key. *)
Fixpoint assoc (key : string) (fields : list (string * json)) : option json :=
  match fields with
  | [] => None
  | (k, v) :: rest => if String.eqb k key then Some v else assoc key rest
  end.

Definition getitem (obj : json) (key : string) : option json :=
  match obj with
  | JObj fields => assoc key fields
  | _ => None
  end.

(** ** The Python runtime and polars *)

Class PyLib : Type := {
  (** [float(s)] on a [str]; [None] when it raises [ValueError]. *)
  float_of_str : string -> option float;
  (** [float(n)] on an [int]; [None] when it raises [OverflowError]. *)
  float_of_int : Z -> option float;
  (** [datetime.fromtimestamp(ms / 1000)]; [None] when it raises. *)
  fromtimestamp : Z -> option Z;
  (** [int(now.replace(hour=0, minute=0, second=0, microsecond=0).timestamp()
      * 1000)] for a wall-clock reading [now]. *)
  midnight_timestamp : Z -> Z;
  (** polars' strict cast of a [Utf8] cell to [Float64]. *)
  cast_float64 : string -> option float;
  (** [pl.read_csv(io.StringIO(content.decode('utf-8')), schema=KLINES_SCHEMA,
      new_columns=KLINES_COLUMNS, has_header=False)]; [None] when decoding
      or parsing raises. *)
  read_csv : string -> option (list (Kline.t float))
}.

(** ** The world *)

(** One page of the bucket listing: the [Key] of every [Contents] element,
    whether [IsTruncated] reads true, and [NextContinuationToken]. *)
Record Page : Type := {
  keys : list string;
  is_truncated : bool;
  next_token : option string
}.

(** How the iteration over a WebSocket connection ends: the peer closes
    normally (the [async for] just stops), the connection breaks
    ([ConnectionClosedError] is raised from the iterator), or the process is
    interrupted. *)
Inductive Closing : Type :=
| ClosedOK
| ConnectionLost (msg : string)
| Interrupted.

(** A text frame is given by what [json.loads] makes of it ([None] when it
    raises). *)
Definition Message : Type := option json.

(** One connection: the frames it delivers, then how it ends. *)
Record Session : Type := {
  messages : list Message;
  closing : Closing
}.

(** [data/continuous_{symbol}_{interval}_{timestamp}.csv]; the timestamp is
    kept as the wall-clock reading it is printed from, in whole seconds. *)
Record Filepath : Type := {
  path_symbol : string;
  path_interval : string;
  path_timestamp : Z
}.

Inductive Line : Type :=
| Info (text : string)
| Warning (text : string)
| Error (text : string)
| Update (closed : bool) (price volume : float)
         (price_change : option (float * float)).

(** The attributes of a [BulkDataDownloader] that the code reads. *)
Record BulkDataDownloader : Type := {
  market : string;
  timeframe : string;
  data_type : string;
  downloader_symbol : string;
  downloader_interval : string
}.

(** The attributes of a [BinanceRealtimeData]. *)
Record BinanceRealtimeData : Type := {
  realtime_symbol : string;
  realtime_interval : string;
  ws_url : string;
  rest_api_url : string;
  historical_downloader : BulkDataDownloader
}.

(** The attributes of a [ContinuousDataStreamer]. *)
Record Streamer : Type := {
  symbol : string;
  interval : string;
  save_interval_minutes : Z;
  realtime : BinanceRealtimeData;
  combined_df : option DataFrame;
  live_candles : list Candle.t;
  last_save_time : Z
}.

(** The services the program talks to.  None of them is changed by it. *)
Record Env : Type := {
  (** the n-th reading of [datetime.now()], in microseconds *)
  clock : nat -> Z;
  (** whether [write_csv] to that path succeeds *)
  writable : Filepath -> bool;
  (** [GET /klines] for a [startTime], after [raise_for_status] and
      [json()] *)
  rest_api : Z -> response (list (Kline.t string));
  (** [GET] of a download URL: the members of the zip archive, by name *)
  cdn : string -> response (list (string * string))
}.

Record World : Type := {
  env : Env;
  streamer : Streamer;
  stdout : list Line;
  disk : list (Filepath * DataFrame);
  (** readings of the wall clock taken so far *)
  ticks : nat;
  (** the connections the WebSocket endpoint will serve, in order *)
  feed : list Session;
  (** the answers the bucket will give to the listing requests, in order *)
  s3 : list (response Page)
}.

Definition with_streamer (f : Streamer -> Streamer) (w : World) : World :=
  {| env := env w; streamer := f (streamer w); stdout := stdout w;
     disk := disk w; ticks := ticks w; feed := feed w; s3 := s3 w |}.

Definition with_stdout (f : list Line -> list Line) (w : World) : World :=
  {| env := env w; streamer := streamer w; stdout := f (stdout w);
     disk := disk w; ticks := ticks w; feed := feed w; s3 := s3 w |}.

Definition with_disk (f : list (Filepath * DataFrame) -> list (Filepath * DataFrame))
  (w : World) : World :=
  {| env := env w; streamer := streamer w; stdout := stdout w;
     disk := f (disk w); ticks := ticks w; feed := feed w; s3 := s3 w |}.

Definition with_ticks (f : nat -> nat) (w : World) : World :=
  {| env := env w; streamer := streamer w; stdout := stdout w;
     disk := disk w; ticks := f (ticks w); feed := feed w; s3 := s3 w |}.

Definition with_feed (f : list Session -> list Session) (w : World) : World :=
  {| env := env w; streamer := streamer w; stdout := stdout w;
     disk := disk w; ticks := ticks w; feed := f (feed w); s3 := s3 w |}.

Definition with_s3 (f : list (response Page) -> list (response Page))
  (w : World) : World :=
  {| env := env w; streamer := streamer w; stdout := stdout w;
     disk := disk w; ticks := ticks w; feed := feed w; s3 := f (s3 w) |}.

Definition set_combined_df (df : option DataFrame) (s : Streamer) : Streamer :=
  {| symbol := symbol s; interval := interval s;
     save_interval_minutes := save_interval_minutes s;
     realtime := realtime s;
     combined_df := df; live_candles := live_candles s;
     last_save_time := last_save_time s |}.

Definition set_live_candles (l : list Candle.t) (s : Streamer) : Streamer :=
  {| symbol := symbol s; interval := interval s;
     save_interval_minutes := save_interval_minutes s;
     realtime := realtime s;
     combined_df := combined_df s; live_candles := l;
     last_save_time := last_save_time s |}.

Definition set_last_save_time (t : Z) (s : Streamer) : Streamer :=
  {| symbol := symbol s; interval := interval s;
     save_interval_minutes := save_interval_minutes s;
     realtime := realtime s;
     combined_df := combined_df s; live_candles := live_candles s;
     last_save_time := t |}.

(** ** The monad of methods *)

Definition M (A : Type) : Type := World -> result A * World.

Definition ret {A} (a : A) : M A := fun w => (Ok a, w).

Definition bind {A B} (c : M A) (k : A -> M B) : M B :=
  fun w =>
    match c w with
    | (Ok a, w') => k a w'
    | (Raise e, w') => (Raise e, w')
    end.

Definition raise {A} (e : exn) : M A := fun w => (Raise e, w).

(** [try: body  except Exception as e: handler(e)]. *)
Definition try_except {A} (body : M A) (handler : string -> M A) : M A :=
  fun w =>
    match body w with
    | (Raise (Exception msg), w') => handler msg w'
    | r => r
    end.

(** [try: body  except KeyboardInterrupt: h1  except Exception as e: h2(e)]. *)
Definition try_except2 {A} (body : M A) (on_interrupt : M A)
  (handler : string -> M A) : M A :=
  fun w =>
    match body w with
    | (Raise KeyboardInterrupt, w') => on_interrupt w'
    | (Raise (Exception msg), w') => handler msg w'
    | r => r
    end.

Declare Scope py_scope.
Delimit Scope py_scope with py.
Notation "x <- c ;; k" := (bind c (fun x => k))
  (at level 100, c at next level, right associativity) : py_scope.
Notation "c ;; k" := (bind c (fun _ => k))
  (at level 100, right associativity) : py_scope.
Local Open Scope py_scope.

Definition gets {A} (f : World -> A) : M A := fun w => (Ok (f w), w).

Definition modify (f : World -> World) : M unit := fun w => (Ok tt, f w).

Definition print (l : Line) : M unit :=
  modify (with_stdout (fun out => out ++ [l])).

(** [datetime.now()]. *)
Definition datetime_now : M Z :=
  fun w => (Ok (clock (env w) (ticks w)), with_ticks S w).

(** An exception for a missing value ([KeyError], [TypeError],
    [ValueError], ...). *)
Definition expect {A} (msg : string) (o : option A) : M A :=
  match o with
  | Some a => ret a
  | None => raise (Exception msg)
  end.

(** The answer of an external service: an error is raised. *)
Definition answer {A} (r : response A) : M A :=
  match r with
  | inl msg => raise (Exception msg)
  | inr a => ret a
  end.

(** [for x in l: body(x)]. *)
Fixpoint for_each {A} (l : list A) (body : A -> M unit) : M unit :=
  match l with
  | [] => ret tt
  | x :: rest => body x ;; for_each rest body
  end.

(** ** Strings and slices *)

Fixpoint rev_string (acc s : string) : string :=
  match s with
  | EmptyString => acc
  | String c rest => rev_string (String c acc) rest
  end.

(** [s.endswith(suffix)]. *)
Definition endswith (suffix s : string) : bool :=
  String.prefix (rev_string "" suffix) (rev_string "" s).

Definition upper_ascii (c : ascii) : ascii :=
  let n := nat_of_ascii c in
  if (97 <=? n)%nat && (n <=? 122)%nat then ascii_of_nat (n - 32) else c.

Definition lower_ascii (c : ascii) : ascii :=
  let n := nat_of_ascii c in
  if (65 <=? n)%nat && (n <=? 90)%nat then ascii_of_nat (n + 32) else c.

Fixpoint map_string (f : ascii -> ascii) (s : string) : string :=
  match s with
  | EmptyString => EmptyString
  | String c rest => String (f c) (map_string f rest)
  end.

(** [s.upper()] and [s.lower()], on ASCII text. *)
Definition upper : string -> string := map_string upper_ascii.
Definition lower : string -> string := map_string lower_ascii.

(** [l[:n]]: the first [n] items, or all but the last [-n] when [n < 0]. *)
Definition slice_to {A} (n : Z) (l : list A) : list A :=
  if 0 <=? n then firstn (Z.to_nat n) l
  else firstn (List.length l - Z.to_nat (- n)) l.

(** [l[-2]], for a list of at least two items. *)
Definition second_last {A} (l : list A) : option A :=
  nth_error l (List.length l - 2).

(** [list.sort()] on strings: the order is the lexicographic order on
    characters, and equal strings are indistinguishable, so any sorting
    algorithm gives the list Python gives. *)
Fixpoint insert_sorted (x : string) (l : list string) : list string :=
  match l with
  | [] => [x]
  | y :: rest => if String.leb x y then x :: l else y :: insert_sorted x rest
  end.

Fixpoint sort (l : list string) : list string :=
  match l with
  | [] => []
  | x :: rest => insert_sorted x (sort rest)
  end.

(** All results, or nothing when one is missing. *)
Fixpoint all_some {A B} (f : A -> option B) (l : list A) : option (list B) :=
  match l with
  | [] => Some []
  | x :: rest =>
      match f x, all_some f rest with
      | Some y, Some ys => Some (y :: ys)
      | _, _ => None
      end
  end.

(** ** [BulkDataDownloader] ([data_processor.py]) *)

Definition BINANCE_DATA_DOWNLOAD_BASE_URL : string :=
  "https://data.binance.vision".

(** The listing loop: one request per answer of the bucket, until a page is
    not truncated or carries no continuation token.  Returns the keys ending
    in [.zip], in the order received, and the answers not yet used. *)
Fixpoint list_pages (answers : list (response Page)) (filenames : list string)
  : result (list string) * list (response Page) :=
  match answers with
  | [] => (Raise (Exception "ConnectionError"), [])
  | inl msg :: rest => (Raise (Exception msg), rest)
  | inr page :: rest =>
      let filenames := filenames ++ filter (endswith ".zip") (keys page) in
      if is_truncated page then
        match next_token page with
        | Some _ => list_pages rest filenames
        | None => (Ok filenames, rest)
        end
      else (Ok filenames, rest)
  end.

Definition get_file_list_from_s3_bucket (prefix : string) : M (list string) :=
  fun w =>
    match list_pages (s3 w) [] with
    | (Ok filenames, rest) => (Ok (sort filenames), with_s3 (fun _ => rest) w)
    | (Raise e, rest) => (Raise e, with_s3 (fun _ => rest) w)
    end.

Definition get_prefix (self : BulkDataDownloader) : string :=
  "data/" ++ market self ++ "/" ++ timeframe self ++ "/" ++ data_type self
  ++ "/" ++ downloader_symbol self ++ "/" ++ downloader_interval self ++ "/".

Definition create_download_urls (filenames : list string) : list string :=
  map (fun filename => (BINANCE_DATA_DOWNLOAD_BASE_URL ++ "/" ++ filename)%string)
    filenames.

(** The content of the first member whose name ends in [.csv], if any. *)
Definition download_file (url : string) : M (option string) :=
  r <- gets (fun w => cdn (env w) url) ;;
  members <- answer r ;;
  ret (option_map snd (find (fun member => endswith ".csv" (fst member)) members)).

Section WithLib.
Context {lib : PyLib}.

(** [pl.read_csv] on what [download_file] returned; [None.decode] raises
    [AttributeError]. *)
Definition read_klines (csv_content : option string) : M (list (Kline.t float)) :=
  content <- expect "AttributeError: 'NoneType' object has no attribute 'decode'"
               csv_content ;;
  expect "ComputeError" (read_csv content).

(** The two [map_elements] columns, for one row. *)
Definition with_datetimes (k : Kline.t float) : option Row.t :=
  match fromtimestamp (Kline.open_time k), fromtimestamp (Kline.close_time k) with
  | Some open_datetime, Some close_datetime =>
      Some (Row.mk (Kline.open_time k) (Kline.open k) (Kline.high k)
              (Kline.low k) (Kline.close k) (Kline.volume k)
              (Kline.close_time k) (Kline.quote_asset_volume k)
              (Kline.number_of_trades k) (Kline.taker_buy_base_volume k)
              (Kline.taker_buy_quote_volume k) (Kline.ignore k)
              open_datetime close_datetime)
  | _, _ => None
  end.

(** [for url in urls: df = pl.concat([df, read(download(url))])]. *)
Fixpoint download_rest (urls : list string) (df : list (Kline.t float))
  : M (list (Kline.t float)) :=
  match urls with
  | [] => ret df
  | url :: rest =>
      csv_content <- download_file url ;;
      temp_df <- read_klines csv_content ;;
      download_rest rest (df ++ temp_df)
  end.

Definition get_polars_df (self : BulkDataDownloader) (nfiles : option Z)
  : M DataFrame :=
  let prefix := get_prefix self in
  filenames <- get_file_list_from_s3_bucket prefix ;;
  let download_urls := create_download_urls filenames in
  first_url <- expect "IndexError: list index out of range"
                 (nth_error download_urls 0) ;;
  csv_content <- download_file first_url ;;
  df <- read_klines csv_content ;;
  let download_urls :=
    match nfiles with
    | Some n => slice_to n download_urls
    | None => download_urls
    end in
  df <- download_rest (List.tl download_urls) df ;;
  expect "ComputeError" (all_some with_datetimes df).

End WithLib.

(** ** [BinanceRealtimeData] ([real_time.py]) *)

Definition new_BulkDataDownloader (symbol interval timeframe : string)
  : BulkDataDownloader :=
  {| market := "spot"; timeframe := timeframe; data_type := "klines";
     downloader_symbol := symbol; downloader_interval := interval |}.

(** [BinanceRealtimeData.__init__]. *)
Definition new_BinanceRealtimeData (symbol interval : string)
  : BinanceRealtimeData :=
  {| realtime_symbol := lower symbol;
     realtime_interval := interval;
     ws_url := "wss://stream.binance.com:9443/ws/" ++ lower symbol
               ++ "@kline_" ++ interval;
     rest_api_url := "https://api.binance.com/api/v3";
     historical_downloader :=
       new_BulkDataDownloader (upper symbol) interval "daily" |}.

(** Python's truth value of a decoded JSON value. *)
Definition truthy (v : json) : bool :=
  match v with
  | JNull => false
  | JBool b => b
  | JInt z => negb (z =? 0)
  | JReal f => negb (PrimFloat.eqb f 0%float)
  | JStr s => negb (String.eqb s "")
  | JArr items => negb (match items with [] => true | _ => false end)
  | JObj fields => negb (match fields with [] => true | _ => false end)
  end.

(** The feed sends timestamps and counts as JSON integers; they are read
    as such. *)
Definition as_int (v : json) : option Z :=
  match v with
  | JInt z => Some z
  | _ => None
  end.

(** [l[-2]['close']] and the price change of [handle_live_candle];
    [change / prev_close] raises [ZeroDivisionError] when [prev_close] is
    zero. *)
Definition price_change (prev_close current_close : float)
  : option (float * float) :=
  let change := PrimFloat.sub current_close prev_close in
  if PrimFloat.eqb prev_close 0%float then None
  else Some (change, PrimFloat.mul (PrimFloat.div change prev_close) 100%float).

Section WithLib.
Context {lib : PyLib}.

Definition get_today_start_timestamp : M Z :=
  today <- datetime_now ;;
  ret (midnight_timestamp today).

(** The twelve REST columns with the text columns cast to [Float64] and
    the two datetime columns added ([cast(pl.Datetime("ms"))] keeps the
    integer). *)
Definition cast_row (k : Kline.t string) : option Row.t :=
  match cast_float64 (Kline.open k), cast_float64 (Kline.high k),
        cast_float64 (Kline.low k), cast_float64 (Kline.close k),
        cast_float64 (Kline.volume k),
        cast_float64 (Kline.quote_asset_volume k),
        cast_float64 (Kline.taker_buy_base_volume k),
        cast_float64 (Kline.taker_buy_quote_volume k) with
  | Some o, Some h, Some l, Some c, Some v, Some q, Some tb, Some tq =>
      Some (Row.mk (Kline.open_time k) o h l c v (Kline.close_time k) q
              (Kline.number_of_trades k) tb tq (Kline.ignore k)
              (Kline.open_time k) (Kline.close_time k))
  | _, _, _, _, _, _, _, _ => None
  end.

Definition get_historical_today_data (self : BinanceRealtimeData)
  : M DataFrame :=
  start_time <- get_today_start_timestamp ;;
  r <- gets (fun w => rest_api (env w) start_time) ;;
  data <- answer r ;;
  match data with
  | _ :: _ =>
      df <- expect "InvalidOperationError" (all_some cast_row data) ;;
      print (Info "Loaded historical candles for today") ;;
      ret df
  | [] => ret []
  end.

Definition get_complete_today_data (self : BinanceRealtimeData)
  : M DataFrame :=
  today_df <- get_historical_today_data self ;;
  try_except
    (yesterday_df <- get_polars_df (historical_downloader self) (Some 1) ;;
     if negb (is_empty yesterday_df) then
       let yesterday_last := tail 10 yesterday_df in
       let complete_df := pl_concat yesterday_last today_df in
       print (Info "Combined data: from yesterday + from today") ;;
       ret complete_df
     else ret today_df)
    (fun e =>
       print (Warning ("Could not get yesterday's data: " ++ e)) ;;
       ret today_df).

(** [float(v)] on a decoded JSON value. *)
Definition py_float (v : json) : option float :=
  match v with
  | JStr s => float_of_str s
  | JInt z => float_of_int z
  | JReal f => Some f
  | JBool b => Some (if b then 1%float else 0%float)
  | _ => None
  end.

Definition field (kline : json) (key : string) : option json :=
  getitem kline key.

Definition float_field (kline : json) (key : string) : option float :=
  match field kline key with
  | Some v => py_float v
  | None => None
  end.

Definition int_field (kline : json) (key : string) : option Z :=
  match field kline key with
  | Some v => as_int v
  | None => None
  end.

(** The body of the [try] of [stream_live_data] up to the callback:
    [json.loads], [data['k']] and the [candle_data] dictionary.  [None]
    when any of it raises. *)
Definition extract_candle (message : Message) : option Candle.t :=
  match message with
  | None => None
  | Some data =>
      match getitem data "k" with
      | None => None
      | Some kline =>
          match int_field kline "t", float_field kline "o",
                float_field kline "h", float_field kline "l",
                float_field kline "c", float_field kline "v",
                int_field kline "T", float_field kline "q",
                int_field kline "n", float_field kline "V",
                float_field kline "Q", field kline "x" with
          | Some t, Some o, Some h, Some l, Some c, Some v, Some T, Some q,
            Some n, Some V, Some Q, Some x =>
              match fromtimestamp t, fromtimestamp T with
              | Some open_datetime, Some close_datetime =>
                  Some (Candle.mk t o h l c v T q n V Q (truthy x)
                          open_datetime close_datetime)
              | _, _ => None
              end
          | _, _, _, _, _, _, _, _, _, _, _, _ => None
          end
      end
  end.

End WithLib.

Definition print_candle_update (candle_data : Candle.t) : M unit :=
  print (Update (Candle.is_closed candle_data) (Candle.close candle_data)
           (Candle.volume candle_data) None).

(** [websockets.connect]: the next connection the endpoint serves. *)
Definition connect (url : string) : M Session :=
  fun w =>
    match feed w with
    | [] => (Raise (Exception "ConnectionRefusedError"), w)
    | websocket :: rest => (Ok websocket, with_feed (fun _ => rest) w)
    end.

Section WithLib.
Context {lib : PyLib}.

(** One turn of the [async for] of [stream_live_data]. *)
Definition on_message (callback : option (Candle.t -> M unit))
  (message : Message) : M unit :=
  try_except
    (candle_data <- expect "malformed message" (extract_candle message) ;;
     match callback with
     | Some callback => callback candle_data
     | None => print_candle_update candle_data
     end)
    (fun e => print (Error ("Error processing WebSocket message: " ++ e))).

Definition stream_live_data (self : BinanceRealtimeData)
  (callback : option (Candle.t -> M unit)) : M unit :=
  print (Info "Starting WebSocket stream") ;;
  websocket <- connect (ws_url self) ;;
  for_each (messages websocket) (on_message callback) ;;
  match closing websocket with
  | ClosedOK => ret tt
  | ConnectionLost msg => raise (Exception msg)
  | Interrupted => raise KeyboardInterrupt
  end.

End WithLib.

(** ** [ContinuousDataStreamer] ([real_time.py]) *)

(** [ContinuousDataStreamer.__init__]: the new object replaces the one in
    the world. *)
Definition new_ContinuousDataStreamer (symbol interval : string)
  (save_interval_minutes : Z) : M unit :=
  now <- datetime_now ;;
  modify (with_streamer (fun _ =>
    {| symbol := symbol;
       interval := interval;
       save_interval_minutes := save_interval_minutes;
       realtime := new_BinanceRealtimeData symbol interval;
       combined_df := None;
       live_candles := [];
       last_save_time := now |})).


(** [self.combined_df], which is [None] until [initialize_data] has run:
    calling a method on it then raises [AttributeError]. *)
Definition get_combined_df : M DataFrame :=
  s <- gets streamer ;;
  expect "AttributeError: 'NoneType' object has no attribute 'is_empty'"
    (combined_df s).

(** The row [integrate_closed_candle] builds from a candle, with the two
    datetime columns cast from the timestamps. *)
Definition new_row (candle_data : Candle.t) : Row.t :=
  Row.mk (Candle.open_time candle_data) (Candle.open candle_data)
    (Candle.high candle_data) (Candle.low candle_data)
    (Candle.close candle_data) (Candle.volume candle_data)
    (Candle.close_time candle_data) (Candle.quote_asset_volume candle_data)
    (Candle.number_of_trades candle_data)
    (Candle.taker_buy_base_volume candle_data)
    (Candle.taker_buy_quote_volume candle_data) ""
    (Candle.open_time candle_data) (Candle.close_time candle_data).

Definition integrate_closed_candle (candle_data : Candle.t) : M unit :=
  print (Info "Integrating closed candle") ;;
  let new_row := new_row candle_data in
  df <- get_combined_df ;;
  (if is_empty df then
     modify (with_streamer (set_combined_df (Some [new_row])))
   else
     modify (with_streamer (set_combined_df (Some (pl_concat df [new_row]))))) ;;
  print (Info "Total candles in dataset").

(** The identifier [save_data] derives from the wall clock when no path is
    given: [strftime("%Y%m%d_%H%M%S")], to the second. *)
Definition timestamped_path (s : Streamer) (now : Z) : Filepath :=
  {| path_symbol := symbol s; path_interval := interval s;
     path_timestamp := now / 1000000 |}.

(** [Path(filepath).parent.mkdir(...)] and [write_csv]: both succeed or the
    first raises. *)
Definition mkdir_parent (filepath : Filepath) : M unit :=
  ok <- gets (fun w => writable (env w) filepath) ;;
  if ok then ret tt else raise (Exception "OSError").

Definition write_csv (filepath : Filepath) (df : DataFrame) : M unit :=
  modify (with_disk (fun files => files ++ [(filepath, df)])).

Definition save_data (filepath : option Filepath) : M unit :=
  filepath <- match filepath with
              | None =>
                  timestamp <- datetime_now ;;
                  s <- gets streamer ;;
                  ret (timestamped_path s timestamp)
              | Some filepath => ret filepath
              end ;;
  try_except
    (mkdir_parent filepath ;;
     df <- get_combined_df ;;
     if negb (is_empty df) then
       write_csv filepath df ;;
       print (Info "Saved candles")
     else print (Warning "No data to save"))
    (fun e => print (Error ("Error saving data: " ++ e))).

(** [(now - last).total_seconds() >= minutes * 60], on wall-clock readings
    in microseconds. *)
Definition save_is_due (now last minutes : Z) : bool :=
  minutes * 60 * 1000000 <=? now - last.

Definition auto_save_check : M unit :=
  now <- datetime_now ;;
  s <- gets streamer ;;
  if save_is_due now (last_save_time s) (save_interval_minutes s) then
    save_data None ;;
    modify (with_streamer (set_last_save_time now))
  else ret tt.

Definition handle_live_candle (candle_data : Candle.t) : M unit :=
  modify (with_streamer (fun s =>
    set_live_candles (live_candles s ++ [candle_data]) s)) ;;
  buffer <- gets (fun w => live_candles (streamer w)) ;;
  change <- (if (1 <? List.length buffer)%nat then
               prev <- expect "IndexError" (second_last buffer) ;;
               match price_change (Candle.close prev) (Candle.close candle_data) with
               | Some change => ret (Some change)
               | None => raise (Exception "ZeroDivisionError: float division by zero")
               end
             else ret None) ;;
  print (Update (Candle.is_closed candle_data) (Candle.close candle_data)
           (Candle.volume candle_data) change) ;;
  (if Candle.is_closed candle_data then integrate_closed_candle candle_data
   else ret tt) ;;
  auto_save_check.

Section WithLib.
Context {lib : PyLib}.

Definition initialize_data : M unit :=
  print (Info "Initializing combined data...") ;;
  self <- gets streamer ;;
  df <- get_complete_today_data (realtime self) ;;
  modify (with_streamer (set_combined_df (Some df))) ;;
  if negb (is_empty df) then
    print (Info "Initialized with historical candles") ;;
    print (Info "Date range")
  else
    print (Warning "No historical data loaded, starting with empty dataset") ;;
    modify (with_streamer (set_combined_df (Some [])))
.

Definition run_continuous_stream : M unit :=
  print (Info "Starting continuous data stream") ;;
  initialize_data ;;
  print (Info "Starting live WebSocket stream...") ;;
  self <- gets streamer ;;
  try_except2
    (stream_live_data (realtime self) (Some handle_live_candle))
    (print (Info "Stopping stream...") ;;
     save_data None ;;
     print (Info "Data saved before exit"))
    (fun e =>
       print (Error ("Stream error: " ++ e)) ;;
       save_data None).

(** [main]: the streamer is built with a save interval of 5 minutes and
    run. *)
Definition main : M unit :=
  new_ContinuousDataStreamer "BTCUSDT" "1m" 5 ;;
  run_continuous_stream.

End WithLib.

(** ** A runtime and sample data for concrete runs *)

Module Sample.

(** Unsigned decimal text. *)
Fixpoint digits (acc : Z) (s : string) : option Z :=
  match s with
  | EmptyString => Some acc
  | String c rest =>
      let n := nat_of_ascii c in
      if (48 <=? n)%nat && (n <=? 57)%nat
      then digits (10 * acc + Z.of_nat (n - 48)) rest
      else None
  end.

Definition parse_int (s : string) : option Z :=
  match s with
  | EmptyString => None
  | _ => digits 0 s
  end.

(** Integers below 2^53 are binary64 values. *)
Definition exact_float (z : Z) : option float :=
  if (0 <=? z) && (z <? 2 ^ 53) then Some (PrimFloat.of_uint63 (Uint63.of_Z z))
  else None.

Definition parse_float (s : string) : option float :=
  match parse_int s with
  | Some z => exact_float z
  | None => None
  end.

Fixpoint split (sep : ascii) (cell s : string) : list string :=
  match s with
  | EmptyString => [rev_string "" cell]
  | String c rest =>
      if Ascii.eqb c sep then rev_string "" cell :: split sep "" rest
      else split sep (String c cell) rest
  end.

Definition parse_line (line : string) : option (Kline.t float) :=
  match split "," "" line with
  | [t; o; h; l; c; v; T; q; n; V; Q; i] =>
      match parse_int t, parse_float o, parse_float h, parse_float l,
            parse_float c, parse_float v, parse_int T, parse_float q,
            parse_int n, parse_float V, parse_float Q with
      | Some t, Some o, Some h, Some l, Some c, Some v, Some T, Some q,
        Some n, Some V, Some Q => Some (Kline.mk t o h l c v T q n V Q i)
      | _, _, _, _, _, _, _, _, _, _, _ => None
      end
  | _ => None
  end.

Definition newline : ascii := ascii_of_nat 10.

Definition parse_csv (content : string) : option (list (Kline.t float)) :=
  all_some parse_line
    (filter (fun line => negb (String.eqb line "")) (split newline "" content)).

(** A runtime that agrees with CPython and polars on the texts and numbers
    used in the runs below: unsigned integer literals below 2^53,
    timestamps shown in UTC. *)
Definition lib : PyLib :=
  {| float_of_str := parse_float;
     float_of_int := exact_float;
     fromtimestamp := fun ms => Some ms;
     midnight_timestamp := fun now => now / 86400000000 * 86400000;
     cast_float64 := parse_float;
     read_csv := parse_csv |}.

(** A kline message of the feed: [{"k": {"t": .., "o": "..", ...}}] with
    every price equal to [price]. *)
Definition kline_message (t : Z) (price : string) (closed : bool) : Message :=
  Some (JObj [("e", JStr "kline");
              ("k", JObj [("t", JInt t); ("T", JInt (t + 999));
                          ("o", JStr price); ("h", JStr price);
                          ("l", JStr price); ("c", JStr price);
                          ("v", JStr "7"); ("n", JInt 3);
                          ("x", JBool closed); ("q", JStr "700");
                          ("V", JStr "2"); ("Q", JStr "200")])]).

(** The candle that message decodes to. *)
Definition candle (t : Z) (price : float) (closed : bool) : Candle.t :=
  Candle.mk t price price price price 7%float (t + 999) 700%float 3
    2%float 200%float closed t (t + 999).

Definition row (t : Z) (price : float) : Row.t :=
  Row.mk t price price price price 7%float (t + 999) 700%float 3
    2%float 200%float "" t (t + 999).

Definition rest_kline (t : Z) (price : string) : Kline.t string :=
  Kline.mk t price price price price "7" (t + 999) "700" 3 "2" "200" "0".

Definition clock_of (readings : list Z) (n : nat) : Z :=
  nth n readings (last readings 0).

(** An environment with no REST rows and no archive. *)
Definition quiet_env (readings : list Z) : Env :=
  {| clock := clock_of readings;
     writable := fun _ => true;
     rest_api := fun _ => inr [];
     cdn := fun _ => inl "404" |}.

Definition streamer_with (df : option DataFrame) (buffer : list Candle.t)
  : Streamer :=
  {| symbol := "BTCUSDT"; interval := "1m"; save_interval_minutes := 5;
     realtime := new_BinanceRealtimeData "BTCUSDT" "1m";
     combined_df := df; live_candles := buffer; last_save_time := 0 |}.

(** A world whose streamer holds [df], with the wall clock giving
    [readings] and the feed serving [sessions]. *)
Definition world (df : option DataFrame) (readings : list Z)
  (sessions : list Session) : World :=
  {| env := quiet_env readings;
     streamer := streamer_with df [];
     stdout := []; disk := []; ticks := 0;
     feed := sessions; s3 := [] |}.

(** An initialised streamer with an empty dataset, before any update. *)
Definition fresh : World := world (Some []) [0] [].

(** An archive of two daily files, listed out of order together with a
    checksum file, and today's candles on the REST endpoint. *)
Definition day1 : string := "data/spot/daily/klines/BTCUSDT/1m/BTCUSDT-1m-2025-01-01.zip".
Definition day2 : string := "data/spot/daily/klines/BTCUSDT/1m/BTCUSDT-1m-2025-01-02.zip".

Definition day1_csv : string :=
  "1000,100,100,100,100,7,1999,700,3,2,200,0" ++ String newline
  "2000,101,101,101,101,7,2999,700,3,2,200,0".

Definition day2_csv : string :=
  "5000,104,104,104,104,7,5999,700,3,2,200,0" ++ String newline
  "6000,105,105,105,105,7,6999,700,3,2,200,0".

Definition archive_env (readings : list Z) : Env :=
  {| clock := clock_of readings;
     writable := fun _ => true;
     rest_api := fun _ => inr [rest_kline 9000 "108"];
     cdn := fun url =>
       if String.eqb url (BINANCE_DATA_DOWNLOAD_BASE_URL ++ "/" ++ day1)
       then inr [("BTCUSDT-1m-2025-01-01.csv", day1_csv)]
       else if String.eqb url (BINANCE_DATA_DOWNLOAD_BASE_URL ++ "/" ++ day2)
       then inr [("BTCUSDT-1m-2025-01-02.csv", day2_csv)]
       else inl "404" |}.

Definition archive_world : World :=
  {| env := archive_env [0];
     streamer := streamer_with None [];
     stdout := []; disk := []; ticks := 0; feed := [];
     s3 := [inr {| keys := [day2; (day2 ++ ".CHECKSUM")%string];
                   is_truncated := true; next_token := Some "page2" |};
            inr {| keys := [day1; (day1 ++ ".CHECKSUM")%string];
                   is_truncated := false; next_token := None |}] |}.

Definition downloader : BulkDataDownloader :=
  new_BulkDataDownloader "BTCUSDT" "1m" "daily".

End Sample.

(** ** Notions used in the statements *)

(** The world a method leaves behind, whether it returns or raises. *)
Definition run {A} (m : M A) (w : World) : World := snd (m w).

(** The consolidated dataset and the live-candles buffer of the streamer. *)
Definition dataset (w : World) : option DataFrame := combined_df (streamer w).
Definition buffer (w : World) : list Candle.t := live_candles (streamer w).

(** A method leaves an observation of the world unchanged. *)
Definition stable {A X} (f : World -> X) (m : M A) : Prop :=
  forall w, f (run m w) = f w.

(** A method returns, whatever the world. *)
Definition returns (m : M unit) : Prop := forall w, fst (m w) = Ok tt.

(** The [except] clause around one turn of the message loop. *)
Definition guarded (body : M unit) : M unit :=
  try_except body
    (fun e => print (Error ("Error processing WebSocket message: " ++ e))).

(** One update handed to [handle_live_candle] from the message loop, and a
    sequence of them. *)
Definition deliver (candle_data : Candle.t) : M unit :=
  guarded (handle_live_candle candle_data).

Definition deliver_all (updates : list Candle.t) : M unit :=
  for_each updates deliver.

Definition last_update (updates : list Candle.t) : option Candle.t :=
  List.last (map Some updates) None.

(** The previous update in the buffer has a zero close price: the price
    change cannot be computed and [handle_live_candle] raises. *)
Definition zero_close (prev : option Candle.t) : bool :=
  match prev with
  | Some p => PrimFloat.eqb (Candle.close p) 0%float
  | None => false
  end.






(** The decoded updates of a connection. *)
Definition decoded {lib : PyLib} (msgs : list Message) : list Candle.t :=
  flat_map (fun m => match extract_candle m with
                     | Some c => [c]
                     | None => []
                     end) msgs.

(** The steps of [handle_live_candle] after the price change is known. *)
Definition handle_tail (c : Candle.t) (change : option (float * float)) : M unit :=
  (print (Update (Candle.is_closed c) (Candle.close c) (Candle.volume c) change) ;;
   (if Candle.is_closed c then integrate_closed_candle c else ret tt) ;;
   auto_save_check)%py.

(** The save period of a streamer, in microseconds. *)
Definition period_us (s : Streamer) : Z :=
  save_interval_minutes s * 60 * 1000000.




(** The download URL of an archive file. *)
Definition url_of (filename : string) : string :=
  BINANCE_DATA_DOWNLOAD_BASE_URL ++ "/" ++ filename.

(** The rows read from the archive file at a URL, when the download, the
    search for a [.csv] member and the parsing all succeed. *)
Definition file_rows {lib : PyLib} (e : Env) (url : string)
  : option (list (Kline.t float)) :=
  match cdn e url with
  | inl _ => None
  | inr members =>
      match find (fun member => endswith ".csv" (fst member)) members with
      | Some (_, content) => read_csv content
      | None => None
      end
  end.

(** The order of [list.sort()] on file names. *)
Definition lexicographic (a b : string) : Prop := String.leb a b = true.

(** ** [BulkDataDownloader.export_csv] ([data_processor.py]) *)

(** A path is the list of its components below the working directory, which
    is the empty list; [Path(path).parent] drops the last component. *)
Definition Path : Type := list string.

Definition parent (p : Path) : Path := removelast p.

Fixpoint path_eqb (p q : Path) : bool :=
  match p, q with
  | [], [] => true
  | a :: p', b :: q' => String.eqb a b && path_eqb p' q'
  | _, _ => false
  end.

Inductive Node : Type :=
| Directory
| File (content : DataFrame).

(** The exception classes [export_csv] tells apart. *)
Inductive ErrorClass : Type :=
| FileNotFoundError
| FileExistsError
| PermissionError
| ValueError
| OtherError.

(** The file system seen by [export_csv]: what is at each path; what
    [mkdir(parents=True, exist_ok=True)] on a path does to it (the error it
    raises, if any, and what is at each path afterwards); and the error
    [write_csv] to a path raises, if any. *)
Record FileSystem : Type := {
  node : Path -> option Node;
  mkdir_outcome : Path -> option ErrorClass * (Path -> option Node);
  write_error : Path -> option ErrorClass
}.

Definition with_nodes (nodes : Path -> option Node) (fs : FileSystem)
  : FileSystem :=
  {| node := nodes; mkdir_outcome := mkdir_outcome fs;
     write_error := write_error fs |}.

(** [p.exists()]. *)
Definition path_exists (fs : FileSystem) (p : Path) : bool :=
  match node fs p with
  | Some _ => true
  | None => false
  end.

(** [df.write_csv(p)] when it succeeds. *)
Definition write_file (p : Path) (df : DataFrame) (fs : FileSystem) : FileSystem :=
  with_nodes (fun q => if path_eqb q p then Some (File df) else node fs q) fs.

(** The line each [except] clause prints before it re-raises. *)
Definition export_error_line (e : ErrorClass) : Line :=
  match e with
  | FileNotFoundError => Error "Path Error"
  | FileExistsError => Error "File Exists Error"
  | PermissionError => Error "Permission Error: Cannot write. Check file permissions."
  | ValueError => Error "Data Error"
  | OtherError => Error "Unexpected error while exporting CSV"
  end.

(** The parent-directory step of [export_csv]: the error raised, if any,
    the file system afterwards and the lines printed. *)
Definition ensure_parent (parent_dir : Path) (create_dir : bool)
  (fs : FileSystem) : option ErrorClass * FileSystem * list Line :=
  if negb (path_exists fs parent_dir) then
    if create_dir then
      let (error, nodes) := mkdir_outcome fs parent_dir in
      (error, with_nodes nodes fs, [Info "Creating directory"])
    else (Some FileNotFoundError, fs, [])
  else (None, fs, []).

(** [export_csv(df, path, create_dir, overwrite)]: the outcome, the file
    system afterwards and the lines printed.  A write that raises leaves
    the file system as it was. *)
Definition export_csv (df : DataFrame) (path : Path)
  (create_dir overwrite : bool) (fs : FileSystem)
  : (ErrorClass + unit) * FileSystem * list Line :=
  let file_path := path in
  if is_empty df then (inl ValueError, fs, [export_error_line ValueError])
  else
    let parent_dir := parent file_path in
    match ensure_parent parent_dir create_dir fs with
    | (Some e, fs1, out) => (inl e, fs1, out ++ [export_error_line e])
    | (None, fs1, out) =>
        if path_exists fs1 file_path && negb overwrite then
          (inl FileExistsError, fs1, out ++ [export_error_line FileExistsError])
        else
          match write_error fs1 file_path with
          | Some e => (inl e, fs1, out ++ [export_error_line e])
          | None => (inr tt, write_file file_path df fs1, out)
          end
    end.

(** ** Further notions *)

(** A method raises nothing that [except Exception] lets through. *)
Definition only_exceptions {A} (m : M A) : Prop :=
  forall w, fst (m w) <> Raise KeyboardInterrupt.

(** The rows of the archive files of a list, in order; a file that cannot
    be read contributes none. *)
Definition rows_of {lib : PyLib} (e : Env) (filenames : list string)
  : list (Kline.t float) :=
  flat_map (fun f => match file_rows e (url_of f) with
                     | Some rows => rows
                     | None => []
                     end) filenames.

(** The files [get_polars_df] reads for a sorted listing: the first one,
    then the others of the slice. *)
Definition files_read (nfiles : option Z) (filenames : list string)
  : list string :=
  match filenames with
  | [] => []
  | first :: _ =>
      first :: List.tl match nfiles with
                       | Some n => slice_to n filenames
                       | None => filenames
                       end
  end.

(** A page after which the listing loop asks for another. *)
Definition continues (page : Page) : bool :=
  is_truncated page && match next_token page with Some _ => true | None => false end.

(** The [.zip] keys of pages, in the order received. *)
Definition zip_keys (pages : list Page) : list string :=
  flat_map (fun page => filter (endswith ".zip") (keys page)) pages.

(** The message loop of [run_continuous_stream]. *)
Definition ingest {lib : PyLib} (msgs : list Message) : M unit :=
  for_each msgs (on_message (Some handle_live_candle)).

(** * Properties *)

(** ** Frame rules of the monad *)

Lemma run_bind {A B} (c : M A) (k : A -> M B) w :
  run (bind c k) w =
  match c w with
  | (Ok a, w') => run (k a) w'
  | (Raise _, w') => w'
  end.
Proof. unfold run, bind. destruct (c w) as [[a | e] w']; reflexivity. Qed.

Lemma stable_ret {A X} (f : World -> X) (a : A) : stable f (ret a).
Proof. intro w. reflexivity. Qed.

Lemma stable_raise {A X} (f : World -> X) e : stable f (@raise A e).
Proof. intro w. reflexivity. Qed.

Lemma stable_gets {A X} (f : World -> X) (g : World -> A) : stable f (gets g).
Proof. intro w. reflexivity. Qed.

Lemma stable_expect {A X} (f : World -> X) msg (o : option A) :
  stable f (expect msg o).
Proof. destruct o; intro w; reflexivity. Qed.

Lemma stable_answer {A X} (f : World -> X) (r : response A) :
  stable f (answer r).
Proof. destruct r; intro w; reflexivity. Qed.

Lemma stable_modify {X} (f : World -> X) (g : World -> World) :
  (forall w, f (g w) = f w) -> stable f (modify g).
Proof. intros H w. apply H. Qed.

Lemma stable_bind {A B X} (f : World -> X) (c : M A) (k : A -> M B) :
  stable f c -> (forall a, stable f (k a)) -> stable f (bind c k).
Proof.
  intros Hc Hk w. rewrite run_bind. specialize (Hc w). unfold run in Hc.
  destruct (c w) as [[a | e] w']; simpl in Hc.
  - rewrite Hk. exact Hc.
  - exact Hc.
Qed.

Lemma stable_try_except {A X} (f : World -> X) (body : M A) handler :
  stable f body -> (forall e, stable f (handler e)) ->
  stable f (try_except body handler).
Proof.
  intros Hb Hh w. specialize (Hb w). unfold run, try_except in *.
  destruct (body w) as [[a | [msg | ]] w']; simpl in *; try exact Hb.
  rewrite <- Hb. apply Hh.
Qed.

Lemma stable_try_except2 {A X} (f : World -> X) (body : M A) h1 h2 :
  stable f body -> stable f h1 -> (forall e, stable f (h2 e)) ->
  stable f (try_except2 body h1 h2).
Proof.
  intros Hb H1 H2 w. specialize (Hb w). unfold run, try_except2 in *.
  destruct (body w) as [[a | [msg | ]] w']; simpl in *; try exact Hb.
  - rewrite <- Hb. apply H2.
  - rewrite <- Hb. apply H1.
Qed.

Lemma stable_for_each {A X} (f : World -> X) (l : list A) body :
  (forall x, stable f (body x)) -> stable f (for_each l body).
Proof.
  intro Hb. induction l as [| x rest IH]; simpl.
  - apply stable_ret.
  - apply stable_bind; auto.
Qed.

Lemma stable_print {X} (f : World -> X) l :
  (forall g w, f (with_stdout g w) = f w) -> stable f (print l).
Proof. intros H w. apply H. Qed.

Lemma stable_datetime_now {X} (f : World -> X) :
  (forall g w, f (with_ticks g w) = f w) -> stable f datetime_now.
Proof. intros H w. apply H. Qed.

(** Splits a method into its steps; what is left are the steps that write. *)
Ltac frame :=
  repeat first
    [ apply stable_ret | apply stable_raise | apply stable_gets
    | apply stable_expect | apply stable_answer
    | apply stable_bind; [ | intro ]
    | apply stable_try_except; [ | intro ]
    | apply stable_try_except2; [ | | intro ]
    | apply stable_for_each; intro
    | apply stable_print; reflexivity
    | apply stable_datetime_now; reflexivity
    | apply stable_modify; reflexivity
    | match goal with
      | |- stable _ (if ?b then _ else _) => destruct b
      | |- stable _ (match ?x with _ => _ end) => destruct x
      end ].

(** ** Saving never touches the dataset, the buffer or the feed *)

Lemma save_data_keeps_streamer filepath : stable streamer (save_data filepath).
Proof.
  unfold save_data, mkdir_parent, get_combined_df, write_csv. frame.
Qed.


Lemma auto_save_check_keeps_dataset : stable dataset auto_save_check.
Proof.
  unfold auto_save_check. frame.
Qed.

Lemma auto_save_check_keeps_buffer : stable buffer auto_save_check.
Proof.
  unfold auto_save_check. frame.
Qed.


Lemma integrate_closed_candle_keeps_buffer c :
  stable buffer (integrate_closed_candle c).
Proof. unfold integrate_closed_candle, get_combined_df. frame. Qed.



(** The buffer grows by the update, whether the call returns or raises. *)
Lemma handle_live_candle_buffer c w :
  buffer (run (handle_live_candle c) w) = buffer w ++ [c].
Proof.
  unfold handle_live_candle. rewrite run_bind. cbn [modify].
  match goal with |- buffer (run ?k ?w') = _ =>
    change (buffer w ++ [c]) with (buffer w');
    generalize w'; change (stable buffer k)
  end.
  frame;
    auto using integrate_closed_candle_keeps_buffer, auto_save_check_keeps_buffer.
Qed.

(** ** C9 *)

(** C9. An update whose [is_closed] flag is false leaves the consolidated
    dataset as it was and is only appended to the live-candles buffer; the
    dataset can change only on an update whose flag is true. *)
Theorem C9_forming_update_is_only_buffered (c : Candle.t) (w : World)
  (Hforming : Candle.is_closed c = false) :
  dataset (run (handle_live_candle c) w) = dataset w /\
  buffer (run (handle_live_candle c) w) = buffer w ++ [c].
Proof.
  split; [ | apply handle_live_candle_buffer ].
  revert w. change (stable dataset (handle_live_candle c)).
  unfold handle_live_candle. rewrite Hforming.
  frame; auto using auto_save_check_keeps_dataset.
Qed.

Lemma C9_forming_update_is_only_buffered_witness :
  dataset (run (handle_live_candle (Sample.candle 2000 101 false)) Sample.fresh)
  = dataset Sample.fresh /\
  buffer (run (handle_live_candle (Sample.candle 2000 101 false)) Sample.fresh)
  = buffer Sample.fresh ++ [Sample.candle 2000 101 false].
Proof.
  apply (@C9_forming_update_is_only_buffered (Sample.candle 2000 101 false)
           Sample.fresh).
  reflexivity.
Defined.

(** Runs the monad's plumbing on the world at hand. *)
Ltac exec :=
  cbv beta iota zeta delta
    [bind ret raise try_except try_except2 gets modify print expect answer
     datetime_now run]; cbn.

Lemma bind_eq {A B} (c : M A) (k : A -> M B) w :
  bind c k w =
  match c w with
  | (Ok a, w') => k a w'
  | (Raise e, w') => (Raise e, w')
  end.
Proof. reflexivity. Qed.

(** ** Methods that always return *)

Lemma bind_returns {B} (c : M unit) (k : unit -> M B) w :
  returns c -> bind c k w = k tt (run c w).
Proof.
  intro H. specialize (H w). unfold bind, run.
  destruct (c w) as [[[] | e] w']; simpl in *; [ reflexivity | discriminate ].
Qed.

Lemma returns_print l : returns (print l).
Proof. intro w. reflexivity. Qed.

Lemma save_data_returns filepath : returns (save_data filepath).
Proof.
  intro w. unfold save_data, mkdir_parent, get_combined_df, write_csv.
  destruct filepath as [p |]; exec;
    match goal with |- context [writable ?e ?p] => destruct (writable e p) end;
    exec; try reflexivity;
    destruct (combined_df (streamer w)) as [[| r df] |]; reflexivity.
Qed.

Lemma auto_save_check_eq w :
  auto_save_check w =
  (if save_is_due (clock (env w) (ticks w)) (last_save_time (streamer w))
        (save_interval_minutes (streamer w))
   then save_data None ;;
        modify (with_streamer (set_last_save_time (clock (env w) (ticks w))))
   else ret tt)%py (with_ticks S w).
Proof. reflexivity. Qed.

Lemma auto_save_check_returns : returns auto_save_check.
Proof.
  intro w. rewrite auto_save_check_eq.
  destruct (save_is_due _ _ _); [ | reflexivity ].
  rewrite bind_returns by apply save_data_returns. reflexivity.
Qed.

(** ** What one update does to the dataset *)

Lemma integrate_closed_candle_appends c w df :
  dataset w = Some df ->
  fst (integrate_closed_candle c w) = Ok tt /\
  dataset (run (integrate_closed_candle c) w) = Some (df ++ [new_row c]).
Proof.
  unfold dataset, integrate_closed_candle, get_combined_df. intro H.
  exec. rewrite H. destruct df; cbn; split; reflexivity.
Qed.

Lemma integrate_closed_candle_uninitialised c w :
  dataset w = None ->
  (exists msg, fst (integrate_closed_candle c w) = Raise (Exception msg)) /\
  dataset (run (integrate_closed_candle c) w) = None.
Proof.
  unfold dataset, integrate_closed_candle, get_combined_df. intro H.
  exec. rewrite H. cbn. split; [ eexists; reflexivity | exact H ].
Qed.

Lemma second_last_snoc (l : list Candle.t) p c :
  second_last ((l ++ [p]) ++ [c]) = Some p.
Proof.
  unfold second_last. rewrite !length_app. simpl.
  replace (List.length l + 1 + 1 - 2)%nat with (List.length l + 0)%nat by lia.
  rewrite <- app_assoc. now rewrite nth_error_app2, Nat.add_0_r, Nat.sub_diag by lia.
Qed.

Lemma last_update_snoc (l : list Candle.t) p : last_update (l ++ [p]) = Some p.
Proof. unfold last_update. rewrite map_app. simpl. apply last_last. Qed.

Lemma handle_tail_dataset c change w df :
  dataset w = Some df ->
  fst (handle_tail c change w) = Ok tt /\
  dataset (run (handle_tail c change) w)
  = Some (if Candle.is_closed c then df ++ [new_row c] else df).
Proof.
  intros H. unfold handle_tail, run.
  rewrite bind_returns by apply returns_print.
  set (w1 := run (print _) w).
  assert (H1 : dataset w1 = Some df) by exact H.
  destruct (Candle.is_closed c).
  - destruct (integrate_closed_candle_appends c w1 H1) as [Hr Hd].
    rewrite bind_eq. unfold run in Hd.
    destruct (integrate_closed_candle c w1) as [[[] | e] w2];
      simpl in Hr, Hd; [ | discriminate ].
    split; [ apply auto_save_check_returns | ].
    transitivity (dataset w2); [ apply auto_save_check_keeps_dataset | exact Hd ].
  - rewrite bind_eq. cbn [ret].
    split; [ apply auto_save_check_returns | ].
    transitivity (dataset w1); [ apply auto_save_check_keeps_dataset | exact H1 ].
Qed.


(** ** A sequence of updates *)








(** ** C1 *)




(** ** C2 *)




(** ** C3 *)




(** ** The message loop *)


Lemma on_message_malformed {lib : PyLib} callback (message : Message) w :
  extract_candle message = None ->
  on_message callback message w
  = print (Error "Error processing WebSocket message: malformed message") w.
Proof. intro H. unfold on_message. rewrite H. reflexivity. Qed.

Lemma on_message_decoded {lib : PyLib} callback (message : Message) c w :
  extract_candle message = Some c ->
  on_message (Some callback) message w = guarded (callback c) w.
Proof. intro H. unfold on_message. rewrite H. reflexivity. Qed.



(** ** C6 *)



(** The rows of both well-formed messages of that run reach the dataset. *)
Example malformed_message_run :
  let w := Sample.world (Some []) [0]
             [{| messages := [Sample.kline_message 1000 "100" true;
                              Some (JObj [("e", JStr "ping")]);
                              Sample.kline_message 2000 "101" true];
                 closing := ClosedOK |}] in
  option_map (map Row.open_time)
    (dataset (run (stream_live_data (lib := Sample.lib)
                     (new_BinanceRealtimeData "BTCUSDT" "1m")
                     (Some handle_live_candle)) w))
  = Some [1000; 2000].
Proof. vm_compute. reflexivity. Qed.

(** ** A connection that feeds [handle_live_candle] *)

Lemma decoded_cons {lib : PyLib} (m : Message) (rest : list Message) :
  decoded (m :: rest)
  = match extract_candle m with
    | Some c => c :: decoded rest
    | None => decoded rest
    end.
Proof. unfold decoded. cbn. destruct (extract_candle m); reflexivity. Qed.







(** ** C4 *)




(** ** The periodic save *)






(** ** C8 *)



(** ** The sorted listing *)

Lemma string_compare_trans : forall s1 s2 s3,
  String.compare s1 s2 <> Gt -> String.compare s2 s3 <> Gt ->
  String.compare s1 s3 <> Gt.
Proof.
  induction s1 as [| a s1 IH]; intros [| b s2] [| c s3]; cbn;
    try congruence.
  destruct (Ascii.compare a b) eqn:Hab; try congruence;
    destruct (Ascii.compare b c) eqn:Hbc; try congruence.
  - apply Ascii.compare_eq_iff in Hab, Hbc. subst.
    assert (Hcc : Ascii.compare c c = Eq) by apply N.compare_refl.
    rewrite Hcc. apply IH.
  - apply Ascii.compare_eq_iff in Hab. subst. rewrite Hbc. congruence.
  - apply Ascii.compare_eq_iff in Hbc. subst. rewrite Hab. congruence.
  - intros _ _.
    assert (Hac : Ascii.compare a c = Lt).
    { unfold Ascii.compare in *. rewrite N.compare_lt_iff in *. lia. }
    rewrite Hac. congruence.
Qed.

Lemma leb_trans s1 s2 s3 :
  String.leb s1 s2 = true -> String.leb s2 s3 = true -> String.leb s1 s3 = true.
Proof.
  unfold String.leb. intros H12 H23.
  pose proof (@string_compare_trans s1 s2 s3) as H.
  destruct (String.compare s1 s2), (String.compare s2 s3),
    (String.compare s1 s3); try reflexivity; try discriminate;
    exfalso; apply H; congruence.
Qed.

Lemma insert_sorted_perm x l : Permutation (x :: l) (insert_sorted x l).
Proof.
  induction l as [| y rest IH]; cbn; [ reflexivity | ].
  destruct (String.leb x y); [ reflexivity | ].
  rewrite perm_swap. now constructor.
Qed.

Lemma sort_perm l : Permutation l (sort l).
Proof.
  induction l as [| x rest IH]; cbn; [ constructor | ].
  rewrite <- insert_sorted_perm. now constructor.
Qed.

Lemma insert_sorted_sorted x l :
  StronglySorted lexicographic l ->
  StronglySorted lexicographic (insert_sorted x l).
Proof.
  induction 1 as [| y rest Hs IH Hall]; cbn; [ repeat constructor | ].
  destruct (String.leb x y) eqn:Hxy.
  - constructor; [ now constructor | ].
    constructor; [ exact Hxy | ].
    eapply Forall_impl; [ | exact Hall ].
    intros z Hyz. eapply leb_trans; eassumption.
  - constructor; [ exact IH | ].
    rewrite <- insert_sorted_perm. constructor; [ | exact Hall ].
    destruct (String.leb_total x y) as [H | H]; [ congruence | exact H ].
Qed.

Lemma sort_sorted l : StronglySorted lexicographic (sort l).
Proof.
  induction l as [| x rest IH]; cbn; [ constructor | ].
  now apply insert_sorted_sorted.
Qed.


(** ** Reading the archive *)



Lemma fetch_rows {lib : PyLib} {B} url (k : list (Kline.t float) -> M B) w :
  (csv_content <- download_file url ;;
   df <- read_klines csv_content ;;
   k df) w
  = match file_rows (env w) url with
    | Some rows => k rows w
    | None =>
        (Raise (Exception
                  match cdn (env w) url with
                  | inl msg => msg
                  | inr members =>
                      match find (fun member => endswith ".csv" (fst member))
                              members with
                      | Some _ => "ComputeError"
                      | None =>
                          "AttributeError: 'NoneType' object has no attribute 'decode'"
                      end
                  end), w)
    end.
Proof.
  unfold download_file, read_klines, file_rows. exec.
  destruct (cdn (env w) url) as [msg | members]; cbn; [ reflexivity | ].
  destruct (find _ members) as [[name content] |]; cbn; [ | reflexivity ].
  destruct (read_csv content); reflexivity.
Qed.

Lemma download_rest_outcome {lib : PyLib} (urls : list string) :
  forall df w,
    snd (download_rest urls df w) = w /\
    (forall df', fst (download_rest urls df w) = Ok df' ->
                 exists more, df' = df ++ more) /\
    ((forall url, In url urls -> file_rows (env w) url <> None) ->
     exists more, fst (download_rest urls df w) = Ok (df ++ more)).
Proof.
  induction urls as [| url rest IH]; intros df w.
  - cbn. split; [ reflexivity | split ].
    + intros df' [= <-]. exists []. now rewrite app_nil_r.
    + intros _. exists []. now rewrite app_nil_r.
  - cbn [download_rest]. rewrite fetch_rows.
    destruct (file_rows (env w) url) as [rows |] eqn:Hrows.
    + destruct (IH (df ++ rows) w) as (Hw & Hprefix & Htotal).
      split; [ exact Hw | split ].
      * intros df' H. destruct (Hprefix df' H) as [more ->].
        exists (rows ++ more). now rewrite app_assoc.
      * intros Hall. destruct Htotal as [more Hmore].
        { intros u Hu. apply Hall. now right. }
        exists (rows ++ more). now rewrite app_assoc.
    + split; [ reflexivity | split ].
      * discriminate.
      * intros Hall. exfalso. apply (Hall url); [ now left | exact Hrows ].
Qed.




(** [get_polars_df] once the listing is known and the first file read. *)
Lemma get_polars_df_after_first {lib : PyLib} (self : BulkDataDownloader)
  (nfiles : option Z) (w : World) filenames rest first others rows :
  list_pages (s3 w) [] = (Ok filenames, rest) ->
  sort filenames = first :: others ->
  file_rows (env w) (url_of first) = Some rows ->
  get_polars_df self nfiles w
  = (df <- download_rest
             (List.tl match nfiles with
                      | Some n => slice_to n (create_download_urls (first :: others))
                      | None => create_download_urls (first :: others)
                      end) rows ;;
     expect "ComputeError" (all_some with_datetimes df))
      (with_s3 (fun _ => rest) w).
Proof.
  intros Hlist Hsorted Hrows.
  unfold get_polars_df. rewrite bind_eq.
  unfold get_file_list_from_s3_bucket. rewrite Hlist, Hsorted.
  cbn [create_download_urls map nth_error]. rewrite bind_eq. cbn [expect ret].
  rewrite fetch_rows. change (env (with_s3 _ w)) with (env w).
  fold (url_of first). rewrite Hrows. reflexivity.
Qed.

(** ** C10 *)



(** ** C7 *)



(** ** C5 *)


(** * Further properties *)

(** ** The bucket listing *)

Lemma zip_keys_app (a b : list Page) : zip_keys (a ++ b) = zip_keys a ++ zip_keys b.
Proof. unfold zip_keys. apply flat_map_app. Qed.

Lemma zip_keys_cons (page : Page) (pages : list Page) :
  zip_keys (page :: pages)
  = filter (endswith ".zip") (keys page) ++ zip_keys pages.
Proof. reflexivity. Qed.

Lemma zip_keys_end_in_zip (pages : list Page) :
  Forall (fun key => endswith ".zip" key = true) (zip_keys pages).
Proof.
  unfold zip_keys. apply Forall_forall. intros key Hin.
  apply in_flat_map in Hin. destruct Hin as (page & _ & Hin).
  apply filter_In in Hin. apply Hin.
Qed.


Lemma list_pages_aborts (pages : list Page) : forall msg later acc,
  Forall (fun page => continues page = true) pages ->
  list_pages (map inr pages ++ inl msg :: later) acc
  = (Raise (Exception msg), later).
Proof.
  induction pages as [| page rest IH]; intros msg later acc Hall.
  - reflexivity.
  - inversion Hall as [| ? ? Hpage Hrest]; subst. cbn [map app list_pages].
    unfold continues in Hpage.
    destruct (is_truncated page); [ | discriminate ].
    destruct (next_token page); [ | discriminate ].
    apply IH, Hrest.
Qed.

Lemma list_pages_step (page : Page) answers acc :
  list_pages (inr page :: answers) acc
  = if continues page
    then list_pages answers (acc ++ filter (endswith ".zip") (keys page))
    else (Ok (acc ++ filter (endswith ".zip") (keys page)), answers).
Proof.
  cbn [list_pages]. unfold continues.
  destruct (is_truncated page), (next_token page); reflexivity.
Qed.

Lemma list_pages_returned (answers : list (response Page)) :
  forall acc filenames rest,
    list_pages answers acc = (Ok filenames, rest) ->
    exists pages last,
      answers = map inr pages ++ inr last :: rest /\
      Forall (fun page => continues page = true) pages /\
      continues last = false /\
      filenames = acc ++ zip_keys (pages ++ [last]).
Proof.
  induction answers as [| [msg | page] answers IH]; intros acc filenames rest H;
    try discriminate.
  rewrite list_pages_step in H. destruct (continues page) eqn:Hc.
  - destruct (IH _ _ _ H) as (pages & last & -> & Hall & Hlast & ->).
    exists (page :: pages), last. repeat split; auto.
    cbn [app]. rewrite zip_keys_cons, app_assoc. reflexivity.
  - injection H as <- <-. exists [], page. repeat split; auto.
    cbn. now rewrite app_nil_r.
Qed.

(** X1. The list [get_file_list_from_s3_bucket] returns is sorted, holds
    only keys ending in [.zip], and holds exactly the [.zip] keys of the
    pages it read (each as often as it was listed). *)
Theorem X1_listing_is_sorted_zip_keys (prefix : string) (w w' : World)
  (filenames : list string)
  (Hlisted : get_file_list_from_s3_bucket prefix w = (Ok filenames, w')) :
  StronglySorted lexicographic filenames /\
  Forall (fun f => endswith ".zip" f = true) filenames /\
  exists pages,
    s3 w = map inr pages ++ s3 w' /\
    Permutation (zip_keys pages) filenames.
Proof.
  unfold get_file_list_from_s3_bucket in Hlisted.
  destruct (list_pages (s3 w) []) as [[names | e] rest] eqn:Hpages;
    [ | discriminate ].
  injection Hlisted as <- <-.
  destruct (list_pages_returned _ _ Hpages) as (pages & last & Hs3 & _ & _ & ->).
  cbn [app]. split; [ apply sort_sorted | split ].
  - eapply Permutation_Forall; [ apply sort_perm | apply zip_keys_end_in_zip ].
  - exists (pages ++ [last]). split; [ | apply sort_perm ].
    rewrite Hs3, map_app, <- app_assoc. reflexivity.
Qed.

Lemma X1_listing_is_sorted_zip_keys_witness :
  StronglySorted lexicographic [Sample.day1; Sample.day2] /\
  Forall (fun f => endswith ".zip" f = true) [Sample.day1; Sample.day2] /\
  exists pages,
    s3 Sample.archive_world
    = map inr pages ++ s3 (with_s3 (fun _ => []) Sample.archive_world) /\
    Permutation (zip_keys pages) [Sample.day1; Sample.day2].
Proof.
  apply (@X1_listing_is_sorted_zip_keys "data/spot/daily/klines/BTCUSDT/1m/"
           Sample.archive_world (with_s3 (fun _ => []) Sample.archive_world)
           [Sample.day1; Sample.day2]).
  vm_compute. reflexivity.
Defined.



(** X3. A listing request that fails aborts the listing: the error is
    raised, whatever the pages read before it held. *)
Theorem X3_listing_error_aborts (prefix : string) (w : World)
  (pages : list Page) (msg : string) (later : list (response Page))
  (Hs3 : s3 w = map inr pages ++ inl msg :: later)
  (Hmore : Forall (fun page => continues page = true) pages) :
  get_file_list_from_s3_bucket prefix w
  = (Raise (Exception msg), with_s3 (fun _ => later) w).
Proof.
  unfold get_file_list_from_s3_bucket.
  rewrite Hs3, (@list_pages_aborts pages msg later [] Hmore). reflexivity.
Qed.

Lemma X3_listing_error_aborts_witness :
  let first_page := {| keys := [Sample.day2]; is_truncated := true;
                       next_token := Some "page2" |} in
  let w := with_s3 (fun _ => [inr first_page; inl "503 Server Error"])
             Sample.archive_world in
  get_file_list_from_s3_bucket "data/spot/daily/klines/BTCUSDT/1m/" w
  = (Raise (Exception "503 Server Error"), with_s3 (fun _ => []) w).
Proof.
  cbv zeta.
  apply (@X3_listing_error_aborts "data/spot/daily/klines/BTCUSDT/1m/"
           (with_s3 (fun _ => [inr {| keys := [Sample.day2];
                                      is_truncated := true;
                                      next_token := Some "page2" |};
                               inl "503 Server Error"])
              Sample.archive_world)
           [{| keys := [Sample.day2]; is_truncated := true;
               next_token := Some "page2" |}]
           "503 Server Error" []).
  - reflexivity.
  - repeat constructor.
Defined.

(** ** The files [get_polars_df] reads *)

Lemma download_rest_reads {lib : PyLib} (files : list string) : forall df w,
  (forall f, In f files -> file_rows (env w) (url_of f) <> None) ->
  download_rest (map url_of files) df w = (Ok (df ++ rows_of (env w) files), w).
Proof.
  induction files as [| f rest IH]; intros df w Hall.
  - cbn. now rewrite app_nil_r.
  - cbn [map download_rest]. rewrite fetch_rows.
    destruct (file_rows (env w) (url_of f)) as [rows |] eqn:Hrows.
    + rewrite IH by (intros g Hg; apply Hall; now right).
      unfold rows_of. cbn [flat_map]. rewrite Hrows, app_assoc. reflexivity.
    + exfalso. apply (Hall f); [ now left | exact Hrows ].
Qed.

Lemma create_download_urls_map (files : list string) :
  create_download_urls files = map url_of files.
Proof. reflexivity. Qed.

Lemma slice_to_map {A B} (f : A -> B) (n : Z) (l : list A) :
  slice_to n (map f l) = map f (slice_to n l).
Proof. unfold slice_to. rewrite length_map. destruct (0 <=? n); apply firstn_map. Qed.

Lemma tl_map {A B} (f : A -> B) (l : list A) :
  List.tl (map f l) = map f (List.tl l).
Proof. now destruct l. Qed.

Lemma selected_urls (nfiles : option Z) (first : string) (others : list string) :
  List.tl match nfiles with
          | Some n => slice_to n (create_download_urls (first :: others))
          | None => create_download_urls (first :: others)
          end
  = map url_of (List.tl (files_read nfiles (first :: others))).
Proof.
  unfold files_read. cbn [List.tl]. rewrite create_download_urls_map.
  destruct nfiles as [n |]; [ rewrite slice_to_map | ]; apply tl_map.
Qed.

(** X4. When the listing holds at least one file and every file it selects
    can be downloaded and parsed, [get_polars_df] returns the rows of those
    files in listing order: the first [n] files of the sorted listing for
    [nfiles = n >= 1], all of them for [nfiles = None]; the timestamps of
    all rows must convert, or it raises. *)
Theorem X4_rows_of_the_files_read {lib : PyLib} (self : BulkDataDownloader)
  (nfiles : option Z) (w : World) (filenames : list string)
  (rest : list (response Page))
  (Hlist : list_pages (s3 w) [] = (Ok filenames, rest))
  (Hsome : filenames <> [])
  (Hread : forall f, In f (files_read nfiles (sort filenames)) ->
                     file_rows (env w) (url_of f) <> None) :
  get_polars_df self nfiles w
  = (match all_some with_datetimes
             (rows_of (env w) (files_read nfiles (sort filenames))) with
     | Some df => Ok df
     | None => Raise (Exception "ComputeError")
     end, with_s3 (fun _ => rest) w) /\
  (forall n, 1 <= n ->
     files_read (Some n) (sort filenames) = firstn (Z.to_nat n) (sort filenames)) /\
  files_read None (sort filenames) = sort filenames.
Proof.
  destruct (sort filenames) as [| first others] eqn:Hsorted.
  { exfalso. apply Hsome. apply Permutation_nil.
    rewrite <- Hsorted. symmetry. apply sort_perm. }
  split; [ | split ].
  - destruct (file_rows (env w) (url_of first)) as [rows |] eqn:Hfirst.
    2:{ exfalso. apply (Hread first); [ now left | exact Hfirst ]. }
    rewrite (get_polars_df_after_first self nfiles w Hlist Hsorted Hfirst).
    rewrite selected_urls, bind_eq.
    rewrite download_rest_reads
      by (intros f Hf; apply Hread; cbn [files_read List.tl] in *; now right).
    change (env (with_s3 (fun _ => rest) w)) with (env w).
    assert (Hrows : rows_of (env w) (files_read nfiles (first :: others))
                    = rows ++ rows_of (env w)
                                (List.tl (files_read nfiles (first :: others)))).
    { cbn [files_read List.tl]. unfold rows_of at 1. cbn [flat_map].
      now rewrite Hfirst. }
    rewrite Hrows.
    destruct (all_some with_datetimes _); reflexivity.
  - intros n Hn. unfold files_read, slice_to.
    replace (0 <=? n) with true by (symmetry; apply Z.leb_le; lia).
    destruct (Z.to_nat n) as [| k] eqn:Hk; [ lia | reflexivity ].
  - reflexivity.
Qed.

Lemma X4_rows_of_the_files_read_witness :
  let lib := Sample.lib in
  let w := Sample.archive_world in
  get_polars_df Sample.downloader (Some 2) w
  = (match all_some with_datetimes
             (rows_of (env w) (files_read (Some 2) (sort [Sample.day2; Sample.day1]))) with
     | Some df => Ok df
     | None => Raise (Exception "ComputeError")
     end, with_s3 (fun _ => []) w) /\
  (forall n, 1 <= n ->
     files_read (Some n) (sort [Sample.day2; Sample.day1])
     = firstn (Z.to_nat n) (sort [Sample.day2; Sample.day1])) /\
  files_read None (sort [Sample.day2; Sample.day1]) = sort [Sample.day2; Sample.day1].
Proof.
  cbv zeta.
  apply (@X4_rows_of_the_files_read Sample.lib Sample.downloader (Some 2)
           Sample.archive_world [Sample.day2; Sample.day1] []).
  - vm_compute. reflexivity.
  - discriminate.
  - intros f Hf. vm_compute in Hf.
    destruct Hf as [<- | [<- | []]]; vm_compute; discriminate.
Defined.

(** The four rows of the two sample files come back in listing order. *)
Example two_files_read :
  option_map (map Row.open_time)
    match fst (get_polars_df (lib := Sample.lib) Sample.downloader (Some 2)
                 Sample.archive_world) with
    | Ok df => Some df
    | Raise _ => None
    end
  = Some [1000; 2000; 5000; 6000].
Proof. vm_compute. reflexivity. Qed.

(** X5. When the listing holds no [.zip] key, [get_polars_df] raises
    [IndexError] (it reads [download_urls[0]] before anything else), and
    [get_complete_today_data] then returns today's frame alone, with a
    warning. *)
Theorem X5_empty_listing {lib : PyLib} (self : BinanceRealtimeData)
  (nfiles : option Z) (w w1 : World) (today_df : DataFrame)
  (rest : list (response Page))
  (Htoday : get_historical_today_data self w = (Ok today_df, w1))
  (Hlist : list_pages (s3 w1) [] = (Ok [], rest)) :
  get_polars_df (historical_downloader self) nfiles w1
  = (Raise (Exception "IndexError: list index out of range"),
     with_s3 (fun _ => rest) w1) /\
  get_complete_today_data self w
  = (Ok today_df,
     with_stdout
       (fun out => out ++ [Warning ("Could not get yesterday's data: "
                                    ++ "IndexError: list index out of range")])
       (with_s3 (fun _ => rest) w1)).
Proof.
  assert (Hraise : forall n,
            get_polars_df (historical_downloader self) n w1
            = (Raise (Exception "IndexError: list index out of range"),
               with_s3 (fun _ => rest) w1)).
  { intro n. unfold get_polars_df, get_file_list_from_s3_bucket.
    rewrite bind_eq, Hlist. reflexivity. }
  split; [ apply Hraise | ].
  unfold get_complete_today_data. rewrite bind_eq, Htoday.
  unfold try_except. rewrite bind_eq, Hraise. reflexivity.
Qed.

Lemma X5_empty_listing_witness :
  let lib := Sample.lib in
  let self := new_BinanceRealtimeData "BTCUSDT" "1m" in
  let w := with_s3 (fun _ => [inr {| keys := ["data/README.txt"];
                                     is_truncated := false;
                                     next_token := None |}])
             Sample.archive_world in
  let w1 := run (get_historical_today_data self) w in
  get_polars_df (historical_downloader self) (Some 1) w1
  = (Raise (Exception "IndexError: list index out of range"),
     with_s3 (fun _ => []) w1) /\
  get_complete_today_data self w
  = (Ok [Row.mk 9000 108 108 108 108 7 9999 700 3 2 200 "0" 9000 9999],
     with_stdout
       (fun out => out ++ [Warning ("Could not get yesterday's data: "
                                    ++ "IndexError: list index out of range")])
       (with_s3 (fun _ => []) w1)).
Proof.
  cbv zeta.
  apply (@X5_empty_listing Sample.lib (new_BinanceRealtimeData "BTCUSDT" "1m")
           (Some 1)).
  - vm_compute. reflexivity.
  - vm_compute. reflexivity.
Defined.

(** X6. When the first file of the sorted listing cannot be read,
    [get_polars_df] raises, whatever [nfiles] is and whatever the other
    files hold: the download error, [AttributeError] when the archive has no
    member ending in [.csv] ([download_file] returned [None]), or the
    parser's error. *)
Theorem X6_first_file_unreadable {lib : PyLib} (self : BulkDataDownloader)
  (nfiles : option Z) (w : World) (filenames : list string)
  (rest : list (response Page)) (first : string) (others : list string)
  (Hlist : list_pages (s3 w) [] = (Ok filenames, rest))
  (Hsorted : sort filenames = first :: others)
  (Hfirst : file_rows (env w) (url_of first) = None) :
  get_polars_df self nfiles w
  = (Raise (Exception
              match cdn (env w) (url_of first) with
              | inl msg => msg
              | inr members =>
                  match find (fun member => endswith ".csv" (fst member))
                          members with
                  | Some _ => "ComputeError"
                  | None =>
                      "AttributeError: 'NoneType' object has no attribute 'decode'"
                  end
              end),
     with_s3 (fun _ => rest) w).
Proof.
  unfold get_polars_df. rewrite bind_eq.
  unfold get_file_list_from_s3_bucket. rewrite Hlist, Hsorted.
  cbn [create_download_urls map nth_error]. rewrite bind_eq. cbn [expect ret].
  rewrite fetch_rows. change (env (with_s3 _ w)) with (env w).
  fold (url_of first). rewrite Hfirst. reflexivity.
Qed.

Lemma X6_first_file_unreadable_witness :
  let lib := Sample.lib in
  let w :=
    {| env := {| clock := Sample.clock_of [0];
                 writable := fun _ => true;
                 rest_api := fun _ => inr [];
                 cdn := fun _ => inr [("README.txt", "no data here")] |};
       streamer := Sample.streamer_with None [];
       stdout := []; disk := []; ticks := 0; feed := [];
       s3 := [inr {| keys := [Sample.day1]; is_truncated := false;
                     next_token := None |}] |} in
  get_polars_df Sample.downloader None w
  = (Raise (Exception
              "AttributeError: 'NoneType' object has no attribute 'decode'"),
     with_s3 (fun _ => []) w).
Proof.
  cbv zeta.
  match goal with
  | |- get_polars_df _ _ ?w = _ =>
      exact (@X6_first_file_unreadable Sample.lib Sample.downloader None w
               [Sample.day1] [] Sample.day1 [] eq_refl eq_refl eq_refl)
  end.
Defined.

(** ** What the archive can raise *)














(** ** Today's candles from the REST endpoint *)

Lemma all_some_forall2 {A B} (f : A -> option B) (l : list A) : forall l',
  all_some f l = Some l' -> Forall2 (fun x y => f x = Some y) l l'.
Proof.
  induction l as [| x rest IH]; intros l' H; cbn in H.
  - injection H as <-. constructor.
  - destruct (f x) as [y |] eqn:Hx; [ | discriminate ].
    destruct (all_some f rest) as [ys |]; [ | discriminate ].
    injection H as <-. constructor; auto.
Qed.

Lemma all_some_exists_none {A B} (f : A -> option B) (l : list A) :
  Exists (fun x => f x = None) l -> all_some f l = None.
Proof.
  induction 1 as [x rest Hx | x rest _ IH]; cbn.
  - now rewrite Hx.
  - rewrite IH. now destruct (f x).
Qed.

Lemma cast_row_keeps_times {lib : PyLib} (k : Kline.t string) (r : Row.t) :
  cast_row k = Some r ->
  Row.open_time r = Kline.open_time k /\
  Row.close_time r = Kline.close_time k /\
  Row.open_datetime r = Row.open_time r /\
  Row.close_datetime r = Row.close_time r.
Proof.
  unfold cast_row.
  repeat match goal with
         | |- context [cast_float64 ?x] => destruct (cast_float64 x)
         end; try discriminate.
  intros [= <-]. cbn. auto.
Qed.

Lemma all_some_forall {A B} (f : A -> option B) (l : list A) :
  Forall (fun x => f x <> None) l -> exists ys, all_some f l = Some ys.
Proof.
  induction 1 as [| x rest Hx _ [ys IH]]; cbn; [ eauto | ].
  destruct (f x) as [y |]; [ | congruence ]. rewrite IH. eauto.
Qed.

Lemma cast_rows_keep_times {lib : PyLib} (data : list (Kline.t string)) df :
  Forall2 (fun k r => cast_row k = Some r) data df ->
  map Row.open_time df = map (@Kline.open_time string) data /\
  map Row.close_time df = map (@Kline.close_time string) data /\
  Forall (fun r => Row.open_datetime r = Row.open_time r /\
                   Row.close_datetime r = Row.close_time r) df.
Proof.
  induction 1 as [| k r data df Hk _ (IHo & IHc & IHd)]; cbn.
  - auto.
  - destruct (cast_row_keeps_times k Hk) as (Ho & Hc & Hod & Hcd).
    rewrite Ho, Hc, IHo, IHc. auto.
Qed.

(** X8. [get_historical_today_data] is all or nothing on the rows the
    endpoint returns: when every price and volume cell casts to a number it
    returns one row per REST row, in the same order, with the same
    timestamps and with the datetime columns equal to them; when a single
    cell does not cast it raises and returns no row. *)
Theorem X8_rest_rows_all_or_nothing {lib : PyLib} (self : BinanceRealtimeData)
  (w : World) (data : list (Kline.t string))
  (Hrest : rest_api (env w) (midnight_timestamp (clock (env w) (ticks w)))
           = inr data) :
  (Forall (fun k => cast_row k <> None) data ->
   exists df w',
     get_historical_today_data self w = (Ok df, w') /\
     map Row.open_time df = map (@Kline.open_time string) data /\
     map Row.close_time df = map (@Kline.close_time string) data /\
     Forall (fun r => Row.open_datetime r = Row.open_time r /\
                      Row.close_datetime r = Row.close_time r) df) /\
  (Exists (fun k => cast_row k = None) data ->
   get_historical_today_data self w
   = (Raise (Exception "InvalidOperationError"), with_ticks S w)).
Proof.
  split.
  - intro Hcast. destruct (all_some_forall cast_row Hcast) as [df Hdf].
    destruct (cast_rows_keep_times (all_some_forall2 cast_row data Hdf))
      as (Ho & Hc & Hd).
    unfold get_historical_today_data, get_today_start_timestamp.
    exec. rewrite Hrest. cbn.
    destruct data as [| k rest].
    + injection Hdf as <-. eexists [], _. repeat split; constructor.
    + rewrite Hdf. cbn. eexists df, _. repeat split; assumption.
  - intro Hbad. unfold get_historical_today_data, get_today_start_timestamp.
    exec. rewrite Hrest. cbn.
    destruct data as [| k rest]; [ inversion Hbad | ].
    rewrite (all_some_exists_none cast_row Hbad). reflexivity.
Qed.

Lemma X8_rest_rows_all_or_nothing_witness :
  let lib := Sample.lib in
  let self := new_BinanceRealtimeData "BTCUSDT" "1m" in
  let good := [Sample.rest_kline 9000 "108"; Sample.rest_kline 9060 "109"] in
  let bad := [Sample.rest_kline 9000 "108"; Sample.rest_kline 9060 "n/a"] in
  let world_of data :=
    {| env := {| clock := Sample.clock_of [0];
                 writable := fun _ => true;
                 rest_api := fun _ => inr data;
                 cdn := fun _ => inl "404" |};
       streamer := Sample.streamer_with None [];
       stdout := []; disk := []; ticks := 0; feed := []; s3 := [] |} in
  (exists df w',
     get_historical_today_data self (world_of good) = (Ok df, w') /\
     map Row.open_time df = [9000; 9060] /\
     Forall (fun r => Row.open_datetime r = Row.open_time r /\
                      Row.close_datetime r = Row.close_time r) df) /\
  get_historical_today_data self (world_of bad)
  = (Raise (Exception "InvalidOperationError"), with_ticks S (world_of bad)).
Proof.
  cbv zeta. split.
  - match goal with
    | |- exists df w', get_historical_today_data ?self ?w = _ /\ _ =>
        destruct (proj1 (@X8_rest_rows_all_or_nothing Sample.lib self w
                           [Sample.rest_kline 9000 "108";
                            Sample.rest_kline 9060 "109"] eq_refl))
          as (df & w' & Hrun & Hopen & _ & Htimes)
    end.
    + repeat constructor; vm_compute; discriminate.
    + exists df, w'. repeat split; assumption.
  - match goal with
    | |- get_historical_today_data ?self ?w = _ =>
        apply (proj2 (@X8_rest_rows_all_or_nothing Sample.lib self w
                        [Sample.rest_kline 9000 "108";
                         Sample.rest_kline 9060 "n/a"] eq_refl))
    end.
    apply Exists_cons_tl, Exists_cons_hd. vm_compute. reflexivity.
Defined.

(** A price that is not a number makes the whole fetch raise. *)
Example unparseable_price_run :
  let w := {| env := {| clock := Sample.clock_of [0];
                        writable := fun _ => true;
                        rest_api := fun _ => inr [Sample.rest_kline 9000 "108";
                                                  Sample.rest_kline 9060 "n/a"];
                        cdn := fun _ => inl "404" |};
              streamer := Sample.streamer_with None [];
              stdout := []; disk := []; ticks := 0; feed := []; s3 := [] |} in
  fst (get_historical_today_data (lib := Sample.lib)
         (new_BinanceRealtimeData "BTCUSDT" "1m") w)
  = Raise (Exception "InvalidOperationError").
Proof. vm_compute. reflexivity. Qed.


(** ** How [handle_live_candle] ends *)

(** The world once the update is in the buffer. *)
Lemma handle_live_candle_unfold c w :
  handle_live_candle c w
  = (change <- (if (1 <? List.length (buffer w ++ [c]))%nat then
                  prev <- expect "IndexError" (second_last (buffer w ++ [c])) ;;
                  match price_change (Candle.close prev) (Candle.close c) with
                  | Some change => ret (Some change)
                  | None => raise (Exception "ZeroDivisionError: float division by zero")
                  end
                else ret None) ;;
     handle_tail c change)
      (with_streamer (fun s => set_live_candles (live_candles s ++ [c]) s) w).
Proof. reflexivity. Qed.

Lemma handle_live_candle_zero_close c w :
  zero_close (last_update (buffer w)) = true ->
  handle_live_candle c w
  = (Raise (Exception "ZeroDivisionError: float division by zero"),
     with_streamer (fun s => set_live_candles (live_candles s ++ [c]) s) w).
Proof.
  intro Hz. rewrite handle_live_candle_unfold.
  destruct (buffer w) as [| p l _] using rev_ind; [ discriminate | ].
  rewrite last_update_snoc in Hz. rewrite second_last_snoc.
  replace (1 <? List.length ((l ++ [p]) ++ [c]))%nat with true
    by (symmetry; apply Nat.ltb_lt; rewrite !length_app; simpl; lia).
  unfold price_change. cbn [zero_close] in Hz.
  cbv beta iota zeta delta [bind ret raise expect]. rewrite Hz. reflexivity.
Qed.

Lemma handle_live_candle_nonzero_close c w :
  zero_close (last_update (buffer w)) = false ->
  exists change,
    handle_live_candle c w
    = handle_tail c change
        (with_streamer (fun s => set_live_candles (live_candles s ++ [c]) s) w).
Proof.
  intro Hz. rewrite handle_live_candle_unfold.
  destruct (buffer w) as [| p l _] using rev_ind.
  - exists None. reflexivity.
  - rewrite last_update_snoc in Hz. rewrite second_last_snoc.
    replace (1 <? List.length ((l ++ [p]) ++ [c]))%nat with true
      by (symmetry; apply Nat.ltb_lt; rewrite !length_app; simpl; lia).
    unfold price_change. cbn [zero_close] in Hz.
    cbv beta iota zeta delta [bind ret raise expect]. rewrite Hz.
    eexists. reflexivity.
Qed.

Lemma handle_tail_uninitialised c change w :
  dataset w = None ->
  if Candle.is_closed c then
    handle_tail c change w
    = (Raise (Exception
                "AttributeError: 'NoneType' object has no attribute 'is_empty'"),
       with_stdout
         (fun out => (out ++ [Update true (Candle.close c) (Candle.volume c) change])
                     ++ [Info "Integrating closed candle"]) w)
  else fst (handle_tail c change w) = Ok tt /\
       dataset (run (handle_tail c change) w) = None.
Proof.
  intro H. unfold handle_tail, dataset in *.
  destruct (Candle.is_closed c).
  - unfold integrate_closed_candle, get_combined_df. exec. rewrite H. reflexivity.
  - unfold run. rewrite bind_returns by apply returns_print.
    rewrite bind_eq. cbn [ret].
    split; [ apply auto_save_check_returns | ].
    transitivity (dataset (run (print (Update false (Candle.close c)
                                         (Candle.volume c) change)) w));
      [ apply auto_save_check_keeps_dataset | exact H ].
Qed.

(** X9. [handle_live_candle] raises [ZeroDivisionError] exactly when the
    previous update in the buffer has a zero close price.  It then stops
    right after buffering the update: nothing is printed, a closed candle
    is not integrated, and the save check is not reached. *)
Theorem X9_zero_close_price_stops_the_handler (c : Candle.t) (w : World) :
  (zero_close (last_update (buffer w)) = true <->
   fst (handle_live_candle c w)
   = Raise (Exception "ZeroDivisionError: float division by zero")) /\
  (zero_close (last_update (buffer w)) = true ->
   run (handle_live_candle c) w
   = with_streamer (fun s => set_live_candles (live_candles s ++ [c]) s) w).
Proof.
  split; [ split | ].
  - intro Hz. now rewrite handle_live_candle_zero_close.
  - intro Hraise.
    destruct (zero_close (last_update (buffer w))) eqn:Hz; [ reflexivity | ].
    exfalso.
    destruct (handle_live_candle_nonzero_close c w Hz) as [change Heq].
    rewrite Heq in Hraise. clear Heq.
    set (w1 := with_streamer _ w) in Hraise.
    destruct (dataset w1) as [df |] eqn:Hd.
    + destruct (handle_tail_dataset c change w1 Hd) as [Hr _]. congruence.
    + pose proof (handle_tail_uninitialised c change w1 Hd) as Ho.
      destruct (Candle.is_closed c).
      * rewrite Ho in Hraise. discriminate Hraise.
      * destruct Ho as [Hr _]. congruence.
  - intro Hz. unfold run. now rewrite handle_live_candle_zero_close.
Qed.

Lemma X9_zero_close_price_stops_the_handler_witness :
  let c := Sample.candle 2000 101 true in
  let w := run (handle_live_candle (Sample.candle 1000 0 false)) Sample.fresh in
  fst (handle_live_candle c w)
  = Raise (Exception "ZeroDivisionError: float division by zero") /\
  run (handle_live_candle c) w
  = with_streamer (fun s => set_live_candles (live_candles s ++ [c]) s) w.
Proof.
  cbv zeta.
  match goal with
  | |- fst (handle_live_candle ?c ?w) = _ /\ _ =>
      split;
      [ exact (proj1 (proj1 (@X9_zero_close_price_stops_the_handler c w)) eq_refl)
      | exact (proj2 (@X9_zero_close_price_stops_the_handler c w) eq_refl) ]
  end.
Defined.



(** A closed candle that follows an update with a zero close price is lost:
    the loop logs the error and the dataset stays empty. *)
Example zero_close_run :
  dataset (run (deliver_all [Sample.candle 1000 0 false;
                             Sample.candle 2000 101 true]) Sample.fresh)
  = Some [].
Proof. vm_compute. reflexivity. Qed.

(** ** Saving *)

Lemma save_data_disk (filepath : option Filepath) (w : World) :
  disk (run (save_data filepath) w)
  = disk w ++ match dataset w with
              | Some (r :: df) =>
                  if writable (env w)
                       match filepath with
                       | Some p => p
                       | None => timestamped_path (streamer w)
                                   (clock (env w) (ticks w))
                       end
                  then [(match filepath with
                         | Some p => p
                         | None => timestamped_path (streamer w)
                                     (clock (env w) (ticks w))
                         end, r :: df)]
                  else []
              | _ => []
              end.
Proof.
  unfold save_data, mkdir_parent, get_combined_df, write_csv, dataset.
  destruct filepath as [p |]; exec;
    match goal with |- context [writable ?e ?p] => destruct (writable e p) end;
    exec;
    destruct (combined_df (streamer w)) as [[| r df] |]; cbn;
    now rewrite ?app_nil_r.
Qed.

(** X11. [save_data] never raises and never changes the streamer.  It
    writes at most one file: exactly when the directory and file can be
    written and the dataset is a non-empty frame; the file then holds the
    whole dataset, under the path given or, without one, under the path
    built from the symbol, the interval and the wall clock. *)
Theorem X11_save_data_effect (filepath : option Filepath) (w : World) :
  let path := match filepath with
              | Some p => p
              | None => timestamped_path (streamer w) (clock (env w) (ticks w))
              end in
  fst (save_data filepath w) = Ok tt /\
  streamer (run (save_data filepath) w) = streamer w /\
  disk (run (save_data filepath) w)
  = disk w ++ match dataset w with
              | Some (r :: df) =>
                  if writable (env w) path then [(path, r :: df)] else []
              | _ => []
              end.
Proof.
  cbv zeta. split; [ apply save_data_returns | ].
  split; [ apply save_data_keeps_streamer | apply save_data_disk ].
Qed.

(** X12. [auto_save_check] saves when at least the save interval has passed
    since the last save time, and then moves the last save time to the time
    of the check whether or not a file was written: after a failed or empty
    save the next attempt waits a full interval.  Otherwise it changes
    neither the streamer nor the files. *)
Theorem X12_auto_save_check_effect (w : World) :
  let now := clock (env w) (ticks w) in
  let path := timestamped_path (streamer w) (clock (env w) (S (ticks w))) in
  let w' := run auto_save_check w in
  fst (auto_save_check w) = Ok tt /\
  if period_us (streamer w) <=? now - last_save_time (streamer w) then
    streamer w' = set_last_save_time now (streamer w) /\
    disk w' = disk w ++ match dataset w with
                        | Some (r :: df) =>
                            if writable (env w) path then [(path, r :: df)] else []
                        | _ => []
                        end
  else streamer w' = streamer w /\ disk w' = disk w.
Proof.
  cbv zeta. split; [ apply auto_save_check_returns | ].
  unfold run. rewrite auto_save_check_eq.
  change (save_is_due (clock (env w) (ticks w)) (last_save_time (streamer w))
            (save_interval_minutes (streamer w)))
    with (period_us (streamer w)
          <=? clock (env w) (ticks w) - last_save_time (streamer w)).
  destruct (period_us (streamer w) <=? _); [ | split; reflexivity ].
  rewrite bind_returns by apply save_data_returns.
  pose proof (save_data_keeps_streamer None (with_ticks S w)) as Hs.
  pose proof (save_data_disk None (with_ticks S w)) as Hd.
  cbn [modify fst snd]. split.
  - cbn. rewrite Hs. reflexivity.
  - cbn. exact Hd.
Qed.

(** ** Start and end of [run_continuous_stream] *)

(** X13. A failure of the REST fetch is fatal to the run:
    [run_continuous_stream] raises the error from [initialize_data], outside
    its [try] statement, so no connection is opened and nothing is saved. *)
Theorem X13_rest_failure_ends_the_run {lib : PyLib} (w : World) (msg : string)
  (Hrest : rest_api (env w) (midnight_timestamp (clock (env w) (ticks w)))
           = inl msg) :
  fst (run_continuous_stream w) = Raise (Exception msg) /\
  feed (run run_continuous_stream w) = feed w /\
  disk (run run_continuous_stream w) = disk w /\
  streamer (run run_continuous_stream w) = streamer w.
Proof.
  unfold run_continuous_stream, initialize_data, get_complete_today_data,
    get_historical_today_data, get_today_start_timestamp.
  exec. rewrite Hrest. cbn. repeat split; reflexivity.
Qed.

Lemma X13_rest_failure_ends_the_run_witness :
  let lib := Sample.lib in
  let w := {| env := {| clock := Sample.clock_of [0];
                        writable := fun _ => true;
                        rest_api := fun _ => inl "HTTPError: 429";
                        cdn := fun _ => inl "404" |};
              streamer := Sample.streamer_with None [];
              stdout := []; disk := []; ticks := 0;
              feed := [{| messages := [Sample.kline_message 1000 "100" true];
                          closing := ClosedOK |}];
              s3 := [] |} in
  fst (run_continuous_stream w) = Raise (Exception "HTTPError: 429") /\
  feed (run run_continuous_stream w) = feed w /\
  disk (run run_continuous_stream w) = disk w /\
  streamer (run run_continuous_stream w) = streamer w.
Proof.
  cbv zeta.
  match goal with
  | |- fst (run_continuous_stream ?w) = _ /\ _ =>
      exact (@X13_rest_failure_ends_the_run Sample.lib w "HTTPError: 429" eq_refl)
  end.
Defined.

Lemma handle_live_candle_only_exceptions c : only_exceptions (handle_live_candle c).
Proof.
  intro w. destruct (zero_close (last_update (buffer w))) eqn:Hz.
  - rewrite handle_live_candle_zero_close by exact Hz. discriminate.
  - destruct (handle_live_candle_nonzero_close c w Hz) as [change ->].
    set (w1 := with_streamer _ w).
    destruct (dataset w1) as [df |] eqn:Hd.
    + destruct (handle_tail_dataset c change w1 Hd) as [-> _]. discriminate.
    + pose proof (handle_tail_uninitialised c change w1 Hd) as Ho.
      destruct (Candle.is_closed c).
      * rewrite Ho. discriminate.
      * destruct Ho as [-> _]. discriminate.
Qed.

Lemma deliver_returns c : returns (deliver c).
Proof.
  intro w. pose proof (handle_live_candle_only_exceptions c w) as H.
  unfold deliver, guarded, try_except.
  destruct (handle_live_candle c w) as [[[] | [msg |]] w1]; cbn in *;
    congruence.
Qed.

Lemma deliver_buffer c w : buffer (run (deliver c) w) = buffer w ++ [c].
Proof.
  pose proof (handle_live_candle_buffer c w) as Hb.
  unfold deliver, guarded, try_except, run in *.
  destruct (handle_live_candle c w) as [[[] | [msg |]] w1]; exact Hb.
Qed.

Lemma ingest_steps {lib : PyLib} (msgs : list Message) : forall w,
  fst (ingest msgs w) = Ok tt /\
  buffer (run (ingest msgs) w) = buffer w ++ decoded msgs.
Proof.
  unfold ingest.
  induction msgs as [| m rest IH]; intro w.
  - cbn. now rewrite app_nil_r.
  - rewrite decoded_cons. unfold run. cbn [for_each]. rewrite bind_eq.
    destruct (extract_candle m) as [c |] eqn:Hm.
    + rewrite (on_message_decoded handle_live_candle m w Hm).
      pose proof (deliver_returns c w) as Hr.
      pose proof (deliver_buffer c w) as Hb.
      unfold deliver, run in Hr, Hb.
      destruct (guarded (handle_live_candle c) w) as [[[] | e] w1];
        cbn [fst snd] in Hr, Hb; [ | discriminate ].
      destruct (IH w1) as [Hr' Hb']. split; [ exact Hr' | ].
      unfold run in Hb'. rewrite Hb', Hb, <- app_assoc. reflexivity.
    + rewrite (on_message_malformed (Some handle_live_candle) m w Hm).
      cbn [print modify fst snd]. apply (IH (with_stdout _ w)).
Qed.


(** The world when the messages of the first connection start to arrive. *)
Lemma run_continuous_stream_connected {lib : PyLib} (w w1 : World)
  (session : Session) (rest : list Session) :
  (print (Info "Starting continuous data stream") ;; initialize_data) w
  = (Ok tt, w1) ->
  feed w1 = session :: rest ->
  run_continuous_stream w
  = try_except2
      (ingest (messages session) ;;
       match closing session with
       | ClosedOK => ret tt
       | ConnectionLost msg => raise (Exception msg)
       | Interrupted => raise KeyboardInterrupt
       end)
      (print (Info "Stopping stream...") ;;
       save_data None ;;
       print (Info "Data saved before exit"))
      (fun e => print (Error ("Stream error: " ++ e)) ;; save_data None)
      (run (print (Info "Starting live WebSocket stream...") ;;
            print (Info "Starting WebSocket stream") ;;
            modify (with_feed (fun _ => rest))) w1).
Proof.
  intros Hinit Hfeed.
  rewrite bind_returns in Hinit by apply returns_print.
  unfold run_continuous_stream.
  rewrite bind_returns by apply returns_print.
  rewrite bind_eq, Hinit.
  rewrite bind_returns by apply returns_print.
  rewrite bind_eq. cbn [gets].
  unfold try_except2, stream_live_data.
  rewrite (bind_returns (c := print (Info "Starting WebSocket stream")))
    by apply returns_print.
  rewrite (bind_eq (connect _)). unfold connect at 1.
  match goal with
  | |- context [feed ?x] => change (feed x) with (feed w1)
  end.
  rewrite Hfeed. reflexivity.
Qed.

(** X15. When the server closes the connection normally,
    [run_continuous_stream] returns in the state the last message left:
    there is no final save, so what was integrated since the last periodic
    save is on no file. *)
Theorem X15_clean_close_saves_nothing {lib : PyLib} (w w1 : World)
  (session : Session) (rest : list Session)
  (Hinit : (print (Info "Starting continuous data stream") ;; initialize_data) w
           = (Ok tt, w1))
  (Hfeed : feed w1 = session :: rest)
  (Hclose : closing session = ClosedOK) :
  fst (run_continuous_stream w) = Ok tt /\
  run run_continuous_stream w
  = run (for_each (messages session) (on_message (Some handle_live_candle)))
      (run (print (Info "Starting live WebSocket stream...") ;;
            print (Info "Starting WebSocket stream") ;;
            modify (with_feed (fun _ => rest))) w1).
Proof.
  change (run run_continuous_stream w) with (snd (run_continuous_stream w)).
  rewrite (run_continuous_stream_connected w Hinit Hfeed), Hclose.
  set (w2 := run _ w1).
  destruct (ingest_steps (messages session) w2) as [Hr _].
  change (for_each (messages session) (on_message (Some handle_live_candle)))
    with (ingest (messages session)).
  unfold run at 1. unfold try_except2. rewrite bind_eq.
  destruct (ingest (messages session) w2) as [[[] | e] w3];
    cbn [fst] in Hr; [ | discriminate ].
  split; reflexivity.
Qed.

Lemma X15_clean_close_saves_nothing_witness :
  let lib := Sample.lib in
  let session := {| messages := [Sample.kline_message 1000 "100" true;
                                 Sample.kline_message 2000 "101" true];
                    closing := ClosedOK |} in
  let w := Sample.world None [0] [session] in
  let w1 := run (print (Info "Starting continuous data stream") ;;
                 initialize_data) w in
  fst (run_continuous_stream w) = Ok tt /\
  run run_continuous_stream w
  = run (for_each (messages session) (on_message (Some handle_live_candle)))
      (run (print (Info "Starting live WebSocket stream...") ;;
            print (Info "Starting WebSocket stream") ;;
            modify (with_feed (fun _ => []))) w1).
Proof.
  cbv zeta.
  apply (@X15_clean_close_saves_nothing Sample.lib).
  - vm_compute. reflexivity.
  - vm_compute. reflexivity.
  - reflexivity.
Defined.

(** Two candles are integrated on that run and no file is written. *)
Example clean_close_run :
  let session := {| messages := [Sample.kline_message 1000 "100" true;
                                 Sample.kline_message 2000 "101" true];
                    closing := ClosedOK |} in
  let w' := run (run_continuous_stream (lib := Sample.lib))
              (Sample.world None [0] [session]) in
  option_map (map Row.open_time) (dataset w') = Some [1000; 2000] /\
  disk w' = [].
Proof. cbv zeta. split; vm_compute; reflexivity. Qed.

Lemma save_data_keeps_env filepath : stable env (save_data filepath).
Proof.
  unfold save_data, mkdir_parent, get_combined_df, write_csv. frame.
Qed.

(** The last file written by a save on a writable disk is the dataset. *)
Lemma final_save_writes_dataset (w : World) (r : Row.t) (df : DataFrame) :
  dataset (run (save_data None) w) = Some (r :: df) ->
  (forall p, writable (env (run (save_data None) w)) p = true) ->
  exists path, disk (run (save_data None) w) = disk w ++ [(path, r :: df)].
Proof.
  intros Hd Hw. rewrite save_data_disk.
  unfold dataset in Hd. rewrite save_data_keeps_streamer in Hd.
  unfold dataset. rewrite Hd.
  rewrite save_data_keeps_env in Hw. rewrite Hw. eauto.
Qed.

(** How [run_continuous_stream] ends, by the way the connection ends. *)
Lemma run_continuous_stream_ending {lib : PyLib} (w w1 : World)
  (session : Session) (rest : list Session) :
  (print (Info "Starting continuous data stream") ;; initialize_data) w
  = (Ok tt, w1) ->
  feed w1 = session :: rest ->
  exists w3,
    run_continuous_stream w
    = match closing session with
      | ClosedOK => (Ok tt, w3)
      | ConnectionLost msg =>
          (print (Error ("Stream error: " ++ msg)) ;; save_data None) w3
      | Interrupted =>
          (print (Info "Stopping stream...") ;;
           save_data None ;;
           print (Info "Data saved before exit")) w3
      end.
Proof.
  intros Hinit Hfeed.
  rewrite (run_continuous_stream_connected w Hinit Hfeed).
  set (w2 := run _ w1).
  destruct (ingest_steps (messages session) w2) as [Hr _].
  unfold try_except2. rewrite bind_eq.
  destruct (ingest (messages session) w2) as [[[] | e] w3];
    cbn [fst] in Hr; [ | discriminate ].
  exists w3. destruct (closing session); reflexivity.
Qed.

(** X16. When the connection breaks, or a [KeyboardInterrupt] is raised
    inside the stream, [run_continuous_stream] catches it and returns after
    one last save: if the dataset is not empty and the disk can be written,
    the last file written holds the final dataset. *)
Theorem X16_final_save_on_loss_or_interrupt {lib : PyLib} (w w1 : World)
  (session : Session) (rest : list Session) (r : Row.t) (df : DataFrame)
  (Hinit : (print (Info "Starting continuous data stream") ;; initialize_data) w
           = (Ok tt, w1))
  (Hfeed : feed w1 = session :: rest)
  (Hclose : closing session <> ClosedOK)
  (Hdata : dataset (run run_continuous_stream w) = Some (r :: df))
  (Hdisk : forall p, writable (env (run run_continuous_stream w)) p = true) :
  fst (run_continuous_stream w) = Ok tt /\
  exists files path,
    disk (run run_continuous_stream w) = files ++ [(path, r :: df)].
Proof.
  destruct (run_continuous_stream_ending w Hinit Hfeed) as [w3 Hrun].
  unfold run in Hdata, Hdisk |- *. rewrite Hrun in *. clear Hrun.
  destruct (closing session) as [| msg |]; [ congruence | | ].
  - rewrite bind_returns in * by apply returns_print.
    set (w4 := run (print _) w3) in *.
    split; [ apply save_data_returns | ].
    destruct (@final_save_writes_dataset w4 r df Hdata Hdisk) as [path Hpath].
    exists (disk w4), path. exact Hpath.
  - rewrite bind_returns in * by apply returns_print.
    set (w4 := run (print _) w3) in *.
    rewrite bind_returns in * by apply save_data_returns.
    cbn [print modify fst snd] in *.
    split; [ reflexivity | ].
    destruct (@final_save_writes_dataset w4 r df Hdata Hdisk) as [path Hpath].
    exists (disk w4), path. exact Hpath.
Qed.

Lemma X16_final_save_on_loss_or_interrupt_witness :
  let lib := Sample.lib in
  let session := {| messages := [Sample.kline_message 1000 "100" true];
                    closing := Interrupted |} in
  let w := Sample.world None [0] [session] in
  fst (run_continuous_stream w) = Ok tt /\
  exists files path,
    disk (run run_continuous_stream w)
    = files ++ [(path, [Sample.row 1000 100])].
Proof.
  cbv zeta.
  apply (@X16_final_save_on_loss_or_interrupt Sample.lib
           (Sample.world None [0]
              [{| messages := [Sample.kline_message 1000 "100" true];
                  closing := Interrupted |}])
           (run (print (Info "Starting continuous data stream") ;;
                 initialize_data (lib := Sample.lib))
              (Sample.world None [0]
                 [{| messages := [Sample.kline_message 1000 "100" true];
                     closing := Interrupted |}]))
           {| messages := [Sample.kline_message 1000 "100" true];
              closing := Interrupted |} []).
  - vm_compute. reflexivity.
  - vm_compute. reflexivity.
  - discriminate.
  - vm_compute. reflexivity.
  - intro p. reflexivity.
Defined.

(** ** Streaming without a callback *)

Lemma stable_connect {X} (f : World -> X) url :
  (forall g w, f (with_feed g w) = f w) -> stable f (connect url).
Proof.
  intros H w. unfold run, connect. destruct (feed w); [ reflexivity | apply H ].
Qed.

Lemma print_loop {lib : PyLib} (msgs : list Message) : forall w,
  let loop := for_each msgs (on_message None) in
  fst (loop w) = Ok tt /\
  feed (run loop w) = feed w /\
  List.length (stdout (run loop w))
  = (List.length (stdout w) + List.length msgs)%nat.
Proof.
  induction msgs as [| m rest IH]; intro w; cbn zeta.
  - cbn. auto.
  - unfold run. cbn [for_each]. rewrite bind_eq.
    assert (Hstep : exists line,
               on_message None m w = (Ok tt, with_stdout (fun out => out ++ [line]) w)).
    { unfold on_message. destruct (extract_candle m) as [c |]; eexists; reflexivity. }
    destruct Hstep as [line ->].
    destruct (IH (with_stdout (fun out => out ++ [line]) w)) as (Hr & Hf & Hl).
    split; [ exact Hr | split; [ exact Hf | ] ].
    unfold run in Hl. rewrite Hl.
    change (stdout (with_stdout (fun out => out ++ [line]) w))
      with (stdout w ++ [line]).
    rewrite length_app. cbn. lia.
Qed.

Lemma stream_live_data_unfold {lib : PyLib} (self : BinanceRealtimeData)
  callback (w : World) :
  stream_live_data self callback w
  = match feed w with
    | [] =>
        (Raise (Exception "ConnectionRefusedError"),
         with_stdout (fun out => out ++ [Info "Starting WebSocket stream"]) w)
    | session :: rest =>
        (for_each (messages session) (on_message callback) ;;
         match closing session with
         | ClosedOK => ret tt
         | ConnectionLost msg => raise (Exception msg)
         | Interrupted => raise KeyboardInterrupt
         end)
          (with_feed (fun _ => rest)
             (with_stdout (fun out => out ++ [Info "Starting WebSocket stream"]) w))
    end.
Proof.
  unfold stream_live_data.
  rewrite bind_returns by apply returns_print.
  rewrite bind_eq. unfold connect.
  change (feed (run (print (Info "Starting WebSocket stream")) w)) with (feed w).
  destruct (feed w); reflexivity.
Qed.

(** X17. Without a callback, [stream_live_data] only prints: it takes one
    connection from the endpoint and prints one line per message received
    (the candle, or the error for a malformed message) after its opening
    line; it changes neither the streamer nor the files and never reads the
    clock. *)
Theorem X17_stream_without_callback_only_prints {lib : PyLib}
  (self : BinanceRealtimeData) (w : World) :
  let w' := run (stream_live_data self None) w in
  streamer w' = streamer w /\ disk w' = disk w /\ ticks w' = ticks w /\
  feed w' = List.tl (feed w) /\
  List.length (stdout w')
  = (List.length (stdout w) + 1
     + match feed w with
       | session :: _ => List.length (messages session)
       | [] => 0
       end)%nat.
Proof.
  cbv zeta.
  assert (Hkeep : stable (fun w => (streamer w, disk w, ticks w))
                    (stream_live_data self None)).
  { unfold stream_live_data, on_message, print_candle_update.
    repeat first [ apply stable_connect; reflexivity | progress frame ]. }
  specialize (Hkeep w). injection Hkeep as Hs Hd Ht.
  repeat (split; [ assumption | ]).
  unfold run. rewrite stream_live_data_unfold.
  destruct (feed w) as [| session rest] eqn:Hfeed.
  - cbn [snd feed stdout with_stdout List.tl]. rewrite length_app. cbn.
    split; [ exact Hfeed | lia ].
  - rewrite bind_eq.
    set (w0 := with_feed _ _).
    destruct (print_loop (messages session) w0) as (Hr & Hf & Hl).
    unfold run in Hf, Hl.
    destruct (for_each (messages session) (on_message None) w0)
      as [[[] | e] w2]; cbn [fst snd] in Hr, Hf, Hl; [ | discriminate ].
    assert (Hend : feed (snd (match closing session with
                              | ClosedOK => ret tt
                              | ConnectionLost msg => raise (Exception msg)
                              | Interrupted => raise KeyboardInterrupt
                              end w2)) = feed w2 /\
                   stdout (snd (match closing session with
                                | ClosedOK => ret tt
                                | ConnectionLost msg => raise (Exception msg)
                                | Interrupted => raise KeyboardInterrupt
                                end w2)) = stdout w2).
    { destruct (closing session); split; reflexivity. }
    destruct Hend as [Hf2 Ho2]. rewrite Hf2, Ho2, Hf, Hl.
    subst w0. cbn [feed stdout with_feed with_stdout List.tl].
    rewrite length_app. cbn. split; [ reflexivity | lia ].
Qed.

(** ** Initialisation *)

Lemma stable_get_file_list {X} (f : World -> X) prefix :
  (forall g w, f (with_s3 g w) = f w) ->
  stable f (get_file_list_from_s3_bucket prefix).
Proof.
  intros H w. unfold run, get_file_list_from_s3_bucket.
  destruct (list_pages (s3 w) []) as [[names | e] rest]; apply H.
Qed.

Lemma stable_download_rest {lib : PyLib} {X} (f : World -> X) urls df :
  stable f (download_rest urls df).
Proof.
  intro w. unfold run.
  destruct (download_rest_outcome urls df w) as (-> & _). reflexivity.
Qed.

Lemma get_complete_today_data_keeps_the_streamer {lib : PyLib} self :
  stable (fun w => (feed w, disk w, streamer w)) (get_complete_today_data self).
Proof.
  unfold get_complete_today_data, get_historical_today_data,
    get_today_start_timestamp, get_polars_df, download_file, read_klines.
  repeat first [ apply stable_get_file_list; reflexivity
               | apply stable_download_rest
               | progress frame ].
Qed.

(** X18. [initialize_data] opens no connection, writes no file and leaves
    the buffer and the last save time alone.  When it returns, the dataset
    is the frame [get_complete_today_data] returned (never [None], so
    closed candles can be integrated); when it raises, the dataset is as it
    was. *)
Theorem X18_initialize_data_sets_only_the_dataset {lib : PyLib} (w : World) :
  let w' := run initialize_data w in
  feed w' = feed w /\ disk w' = disk w /\ buffer w' = buffer w /\
  last_save_time (streamer w') = last_save_time (streamer w) /\
  match fst (initialize_data w) with
  | Ok _ =>
      exists df,
        dataset w' = Some df /\
        fst (get_complete_today_data (realtime (streamer w))
               (run (print (Info "Initializing combined data...")) w)) = Ok df
  | Raise _ => dataset w' = dataset w
  end.
Proof.
  cbv zeta. unfold run, initialize_data.
  rewrite bind_returns by apply returns_print.
  set (w0 := run (print _) w).
  rewrite bind_eq. cbn [gets].
  change (realtime (streamer w0)) with (realtime (streamer w)).
  pose proof (get_complete_today_data_keeps_the_streamer
                (realtime (streamer w)) w0) as Hkeep.
  unfold run in Hkeep. rewrite bind_eq.
  destruct (get_complete_today_data (realtime (streamer w)) w0)
    as [[df | e] w1] eqn:Hget; cbn [fst snd] in Hkeep;
    injection Hkeep as Hf Hd Hs.
  - assert (Hfetched : fst (get_complete_today_data (realtime (streamer w)) w0)
                       = Ok df) by now rewrite Hget.
    clear Hget.
    destruct (is_empty df) eqn:Hempty; exec;
      unfold buffer, dataset; cbn; rewrite ?Hs;
      repeat split; try assumption; try reflexivity.
    + exists df. destruct df; [ split; [ reflexivity | exact Hfetched ]
                              | discriminate ].
    + exists df. split; [ reflexivity | exact Hfetched ].
  - cbn. unfold buffer, dataset. rewrite Hs. repeat split; assumption.
Qed.

(** ** [export_csv] *)

Lemma path_eqb_refl (p : Path) : path_eqb p p = true.
Proof.
  induction p as [| a p IH]; [ reflexivity | ].
  cbn. now rewrite String.eqb_refl, IH.
Qed.

(** X19. [export_csv] returns only when the frame is not empty and the
    parent directory exists or [create_dir] is set; the file at the path
    then holds the frame.  When the parent directory was already there,
    nothing is printed, every other path is as before, and without
    [overwrite] the file was absent. *)
Theorem X19_export_csv_success (df : DataFrame) (path : Path)
  (create_dir overwrite : bool) (fs fs' : FileSystem) (out : list Line)
  (Hok : export_csv df path create_dir overwrite fs = (inr tt, fs', out)) :
  is_empty df = false /\
  node fs' path = Some (File df) /\
  (path_exists fs (parent path) = true \/ create_dir = true) /\
  (path_exists fs (parent path) = true ->
   out = [] /\
   (overwrite = false -> path_exists fs path = false) /\
   forall q, path_eqb q path = false -> node fs' q = node fs q).
Proof.
  unfold export_csv, ensure_parent in Hok.
  destruct (is_empty df) eqn:Hempty; [ discriminate | ].
  split; [ reflexivity | ].
  destruct (path_exists fs (parent path)) eqn:Hparent; cbn [negb] in Hok.
  - destruct (path_exists fs path && negb overwrite) eqn:Hguard;
      [ discriminate | ].
    destruct (write_error fs path); [ discriminate | ].
    injection Hok as <- <-.
    split; [ cbn; now rewrite path_eqb_refl | ]. split; [ now left | ].
    intros _. split; [ reflexivity | split ].
    + intros ->. now rewrite andb_true_r in Hguard.
    + intros q Hq. cbn. now rewrite Hq.
  - destruct create_dir; [ | discriminate ].
    destruct (mkdir_outcome fs (parent path)) as [[e |] nodes]; [ discriminate | ].
    destruct (path_exists _ path && negb overwrite); [ discriminate | ].
    destruct (write_error _ path); [ discriminate | ].
    injection Hok as <- <-.
    split; [ cbn; now rewrite path_eqb_refl | ]. split; [ now right | ].
    discriminate.
Qed.

Lemma X19_export_csv_success_witness :
  let fs := {| node := fun p => if path_eqb p [] || path_eqb p ["data"]
                                then Some Directory else None;
               mkdir_outcome := fun _ => (Some PermissionError, fun _ => None);
               write_error := fun _ => None |} in
  let df := [Sample.row 1000 100] in
  let path := ["data"; "klines.csv"] in
  is_empty df = false /\
  node (write_file path df fs) path = Some (File df) /\
  (path_exists fs (parent path) = true \/ false = true) /\
  (path_exists fs (parent path) = true ->
   @nil Line = [] /\
   (false = false -> path_exists fs path = false) /\
   forall q, path_eqb q path = false ->
             node (write_file path df fs) q = node fs q).
Proof.
  cbv zeta.
  match goal with
  | |- _ /\ node (write_file ?path ?df ?fs) _ = _ /\ _ =>
      exact (@X19_export_csv_success df path false false fs
               (write_file path df fs) [] eq_refl)
  end.
Defined.

(** X20. [export_csv] replaces no file and creates no directory unless
    asked.  Without [overwrite], a call on a path that exists (in a
    directory that exists) raises and leaves the file system as it was:
    [ValueError] for an empty frame, [FileExistsError] otherwise.  Without
    [create_dir], whatever the outcome, every path other than the file's is
    as before; a missing parent directory makes the call raise
    [FileNotFoundError] for a non-empty frame. *)
Theorem X20_export_csv_only_does_what_is_asked (df : DataFrame) (path : Path)
  (fs : FileSystem) :
  (forall create_dir,
     path_exists fs path = true ->
     path_exists fs (parent path) = true ->
     export_csv df path create_dir false fs
     = (inl (if is_empty df then ValueError else FileExistsError), fs,
        [export_error_line (if is_empty df then ValueError else FileExistsError)])) /\
  (forall overwrite q,
     path_eqb q path = false ->
     node (snd (fst (export_csv df path false overwrite fs))) q = node fs q) /\
  (forall overwrite,
     is_empty df = false ->
     path_exists fs (parent path) = false ->
     export_csv df path false overwrite fs
     = (inl FileNotFoundError, fs, [export_error_line FileNotFoundError])).
Proof.
  split; [ | split ].
  - intros create_dir Hfile Hparent. unfold export_csv, ensure_parent.
    destruct (is_empty df); [ reflexivity | ].
    rewrite Hparent. cbn [negb]. rewrite Hfile. reflexivity.
  - intros overwrite q Hq. unfold export_csv, ensure_parent.
    destruct (is_empty df); [ reflexivity | ].
    destruct (path_exists fs (parent path)); cbn [negb]; [ | reflexivity ].
    destruct (path_exists fs path && negb overwrite); [ reflexivity | ].
    destruct (write_error fs path); [ reflexivity | ].
    cbn. now rewrite Hq.
  - intros overwrite Hdf Hparent. unfold export_csv, ensure_parent.
    rewrite Hdf, Hparent. reflexivity.
Qed.

Lemma X20_export_csv_only_does_what_is_asked_witness :
  let fs := {| node := fun p => if path_eqb p [] || path_eqb p ["data"]
                                then Some Directory
                                else if path_eqb p ["data"; "klines.csv"]
                                     then Some (File [Sample.row 500 99])
                                     else None;
               mkdir_outcome := fun _ => (None, fun _ => Some Directory);
               write_error := fun _ => None |} in
  let df := [Sample.row 1000 100] in
  export_csv df ["data"; "klines.csv"] true false fs
  = (inl FileExistsError, fs, [Error "File Exists Error"]) /\
  node (snd (fst (export_csv df ["data"; "klines.csv"] false true fs)))
    ["data"; "other.csv"]
  = node fs ["data"; "other.csv"] /\
  export_csv df ["archive"; "klines.csv"] false true fs
  = (inl FileNotFoundError, fs, [Error "Path Error"]).
Proof.
  cbv zeta.
  match goal with
  | |- export_csv ?df _ _ _ ?fs = _ /\ _ =>
      split; [ | split ];
      [ exact (proj1 (@X20_export_csv_only_does_what_is_asked df
                        ["data"; "klines.csv"] fs) true eq_refl eq_refl)
      | exact (proj1 (proj2 (@X20_export_csv_only_does_what_is_asked df
                               ["data"; "klines.csv"] fs))
                 true ["data"; "other.csv"] eq_refl)
      | exact (proj2 (proj2 (@X20_export_csv_only_does_what_is_asked df
                               ["archive"; "klines.csv"] fs))
                 true eq_refl eq_refl) ]
  end.
Defined.
